(** * jerseyshop: the request handlers of [server.js]

    A shallow embedding of the Express routes of [src/server.js] over an
    explicit model of the MongoDB collections they read and write.

    What is modelled, and how:
    - a collection is the list of its documents in natural (insertion)
      order; [findOne], [updateOne] and [deleteOne] act on the first
      document that matches the filter;
    - a document is an ordered list of fields holding scalar values
      (sub-documents and arrays inside stored data or request bodies are
      outside the model, and with them query-operator documents);
    - a JavaScript number is the rational it stands for, or one of
      [Infinity], [-Infinity], [NaN]; [parseFloat] and [+] round to the
      nearest binary64 value, ties to even, and overflow to an infinity;
      the sign of zero is not modelled; [$sum] adds in document order
      with that [+], and the statements about sums use it only where no
      rounding occurs (whole numbers up to [2 ^ 53]) and for [NaN];
    - a string is the sequence of its UTF-8 bytes;
    - what the environment decides is an input of the handler: the
      identifier the driver generates for an insert, the salt [bcrypt]
      draws, the path of the uploaded image, the clock;
    - [bcrypt] is a parameter of the development; the [mongodb] driver's
      [ObjectId] follows the 24-hex-digit rule of its string constructor
      (the 12-byte strings that older drivers also take are not modelled);
    - every store round trip is recorded in a log, so that "the handler
      never reaches the store" can be stated;
    - failures of the connection itself are not modelled: a store call
      throws only where the driver does so deterministically (a malformed
      id given to [new ObjectId], a duplicate [_id] on insert, a
      non-string given to [bcrypt]). *)

From Stdlib Require Import List String Ascii Bool ZArith NArith QArith Qreduction Lia.
From Stdlib.Strings Require Import Byte.
Import ListNotations.
Local Open Scope string_scope.
Local Open Scope list_scope.
Local Open Scope Z_scope.

(** ** JavaScript numbers *)

Inductive number : Type :=
| Fin (q : Q)
| PosInf
| NegInf
| NaN.

Definition num (z : Z) : number := Fin (z # 1).

(** The integer nearest to [n / d], the even one of two equally near. *)
Definition roundHalfEven (n d : Z) : Z :=
  let q := n / d in
  let r := n mod d in
  match 2 * r ?= d with
  | Lt => q
  | Gt => q + 1
  | Eq => if Z.even q then q else q + 1
  end.

(** The integer part of the binary logarithm of [n / d], both positive. *)
Definition floorLog2 (n d : Z) : Z :=
  let e := Z.log2 n - Z.log2 d in
  if (if 0 <=? e then d * 2 ^ e <=? n else d <=? n * 2 ^ (- e)) then e else e - 1.

(** [m * 2 ^ u] *)
Definition scaled (m u : Z) : Q :=
  if 0 <=? u then (m * 2 ^ u) # 1 else m # Z.to_pos (2 ^ (- u)).

(** The binary64 value nearest to [q]: 53 significant bits, the least
    unit [2 ^ -1074], ties to even, an infinity from [2 ^ 1024] on. *)
Definition round64 (q : Q) : number :=
  let q := Qred q in
  let n := Z.abs (Qnum q) in
  let d := Zpos (Qden q) in
  if n =? 0 then Fin (0 # 1)
  else
    let u := Z.max (floorLog2 n d - 52) (-1074) in
    let m := if 0 <=? u then roundHalfEven n (d * 2 ^ u)
             else roundHalfEven (n * 2 ^ (- u)) d in
    if (0 <=? u) && (2 ^ 1024 <=? m * 2 ^ u)
    then (if Qnum q <? 0 then NegInf else PosInf)
    else Fin (Qred (scaled (if Qnum q <? 0 then - m else m) u)).

(** [a + b] *)
Definition nadd (a b : number) : number :=
  match a, b with
  | NaN, _ | _, NaN => NaN
  | PosInf, NegInf | NegInf, PosInf => NaN
  | PosInf, _ | _, PosInf => PosInf
  | NegInf, _ | _, NegInf => NegInf
  | Fin x, Fin y => round64 (x + y)
  end.

Definition number_eqb (a b : number) : bool :=
  match a, b with
  | Fin x, Fin y => Qeq_bool x y
  | PosInf, PosInf | NegInf, NegInf | NaN, NaN => true
  | _, _ => false
  end.

Definition isNaN (a : number) : bool :=
  match a with NaN => true | _ => false end.

(** *** [parseFloat] on a string

    Leading white space is skipped, then the longest prefix that is a
    decimal literal is read: an optional sign, then [Infinity], or digits
    with an optional fraction and an optional exponent. No such prefix
    gives [NaN]. The value read is rounded to binary64. *)

(** TAB, LF, VT, FF, CR and the space. *)
Definition isWhiteSpace (c : ascii) : bool :=
  let n := N_of_ascii c in
  ((9 <=? n) && (n <=? 13) || (n =? 32))%N.

(** U+00A0 in UTF-8. *)
Definition isWhiteSpace2 (a b : ascii) : bool :=
  ((N_of_ascii a =? 194) && (N_of_ascii b =? 160))%N.

(** U+1680, U+2000 to U+200A, U+2028, U+2029, U+202F, U+205F, U+3000
    and U+FEFF in UTF-8. *)
Definition isWhiteSpace3 (a b c : ascii) : bool :=
  let x := N_of_ascii a in
  let y := N_of_ascii b in
  let z := N_of_ascii c in
  ((x =? 225) && (y =? 154) && (z =? 128)
   || (x =? 226) && (y =? 128)
      && ((128 <=? z) && (z <=? 138) || (z =? 168) || (z =? 169) || (z =? 175))
   || (x =? 226) && (y =? 129) && (z =? 159)
   || (x =? 227) && (y =? 128) && (z =? 128)
   || (x =? 239) && (y =? 187) && (z =? 191))%N.

Fixpoint trimStart (s : string) : string :=
  match s with
  | EmptyString => s
  | String a r =>
      if isWhiteSpace a then trimStart r
      else
        match r with
        | String b r2 =>
            if isWhiteSpace2 a b then trimStart r2
            else
              match r2 with
              | String c r3 => if isWhiteSpace3 a b c then trimStart r3 else s
              | EmptyString => s
              end
        | EmptyString => s
        end
  end.

Definition decDigit (c : ascii) : option Z :=
  let n := N_of_ascii c in
  if ((48 <=? n) && (n <=? 57))%N then Some (Z.of_N n - 48) else None.

(** The digits at the head of [s], their count, and what follows them. *)
Fixpoint readDigits (acc : Z) (count : Z) (s : string) : Z * Z * string :=
  match s with
  | String c r =>
      match decDigit c with
      | Some d => readDigits (10 * acc + d) (count + 1) r
      | None => (acc, count, s)
      end
  | EmptyString => (acc, count, s)
  end.

Definition readSign (s : string) : bool * string :=
  match s with
  | String "-" r => (true, r)
  | String "+" r => (false, r)
  | _ => (false, s)
  end.

Definition readExponent (s : string) : Z :=
  match s with
  | String c r =>
      if (Ascii.eqb c "e" || Ascii.eqb c "E")%bool then
        let '(neg, r') := readSign r in
        let '(e, n, _) := readDigits 0 0 r' in
        if n =? 0 then 0 else if neg then - e else e
      else 0
  | EmptyString => 0
  end.

Definition pow10 (e : Z) : Q :=
  if 0 <=? e then (10 ^ e) # 1 else 1 # (Z.to_pos (10 ^ (- e))).

Definition parseFloatString (s : string) : number :=
  let '(neg, s0) := readSign (trimStart s) in
  if String.prefix "Infinity" s0 then (if neg then NegInf else PosInf)
  else
    let '(ip, ni, s1) := readDigits 0 0 s0 in
    let '(m, nf, s2) :=
      match s1 with
      | String "." r =>
          readDigits ip 0 r
      | _ => (ip, 0, s1)
      end in
    if (ni =? 0) && (nf =? 0) then NaN
    else
      let e := readExponent s2 - nf in
      let q := Qmult (m # 1) (pow10 e) in
      round64 (if neg then Qopp q else q).

(** ** Store identifiers: the driver's [ObjectId] *)

Definition hexDigit (c : ascii) : option N :=
  let n := N_of_ascii c in
  if ((48 <=? n) && (n <=? 57))%N then Some (n - 48)%N
  else if ((97 <=? n) && (n <=? 102))%N then Some (n - 87)%N
  else if ((65 <=? n) && (n <=? 70))%N then Some (n - 55)%N
  else None.

Definition hexChar (n : N) : ascii :=
  ascii_of_N (if (n <? 10)%N then n + 48 else n + 87)%N.

Module ObjectId.

(** The twelve bytes of the identifier. *)
Definition t : Type := list byte.

Fixpoint fromHex (s : string) : option t :=
  match s with
  | EmptyString => Some []
  | String a (String b r) =>
      match hexDigit a, hexDigit b, fromHex r with
      | Some h, Some l, Some bs =>
          match Byte.of_N (16 * h + l) with
          | Some x => Some (x :: bs)
          | None => None
          end
      | _, _, _ => None
      end
  | String _ EmptyString => None
  end.

(** [new ObjectId(s)] for a string [s]: twenty-four hex digits, or the
    constructor throws. *)
Definition new (s : string) : option t :=
  if (String.length s =? 24)%nat then fromHex s else None.

(** [ObjectId.isValid(s)]: the constructor does not throw. *)
Definition isValid (s : string) : bool :=
  match new s with Some _ => true | None => false end.

Definition eqb (a b : t) : bool :=
  if list_eq_dec Byte.byte_eq_dec a b then true else false.

Fixpoint toHexString (o : t) : string :=
  match o with
  | [] => EmptyString
  | x :: r =>
      let n := Byte.to_N x in
      String (hexChar (n / 16)) (String (hexChar (n mod 16)) (toHexString r))
  end.

End ObjectId.

(** ** Values, documents and JavaScript's coercions *)

Inductive value : Type :=
| VUndefined
| VNull
| VBool (b : bool)
| VNum (n : number)
| VStr (s : string)
| VId (o : ObjectId.t)
| VDate (t : Z).

Definition document : Type := list (string * value).

(** [d.k]: the first field named [k], [undefined] when there is none. *)
Fixpoint field (k : string) (d : document) : value :=
  match d with
  | [] => VUndefined
  | (k', v) :: r => if String.eqb k k' then v else field k r
  end.

(** [d.k = v] on an object, and one field of a [$set]: an existing field
    is overwritten where it stands, a new one goes last. *)
Fixpoint setField (k : string) (v : value) (d : document) : document :=
  match d with
  | [] => [(k, v)]
  | (k', v') :: r =>
      if String.eqb k k' then (k', v) :: r else (k', v') :: setField k v r
  end.

Definition removeField (k : string) (d : document) : document :=
  filter (fun kv => negb (String.eqb k (fst kv))) d.

Definition setFields (updates : document) (d : document) : document :=
  fold_left (fun acc kv => setField (fst kv) (snd kv) acc) updates d.

(** ToBoolean. *)
Definition truthy (v : value) : bool :=
  match v with
  | VUndefined | VNull => false
  | VBool b => b
  | VNum (Fin q) => negb (Qeq_bool q 0)
  | VNum NaN => false
  | VNum _ => true
  | VStr s => negb (String.eqb s "")
  | VId _ | VDate _ => true
  end.

(** [a || b]. *)
Definition or_else (a b : value) : value := if truthy a then a else b.

(** [parseFloat(v)]: the argument is first turned into a string. A number
    reads back as itself; [undefined], [null], booleans and dates print
    as text that starts with no digit; an identifier prints as its hex
    digits. *)
Definition parseFloat (v : value) : number :=
  match v with
  | VStr s => parseFloatString s
  | VNum n => n
  | VId o => parseFloatString (ObjectId.toHexString o)
  | VUndefined | VNull | VBool _ | VDate _ => NaN
  end.

(** Equality of two values as the store compares them. *)
Definition value_eqb (a b : value) : bool :=
  match a, b with
  | VUndefined, VUndefined | VNull, VNull => true
  | VBool x, VBool y => Bool.eqb x y
  | VNum x, VNum y => number_eqb x y
  | VStr x, VStr y => String.eqb x y
  | VId x, VId y => ObjectId.eqb x y
  | VDate x, VDate y => x =? y
  | _, _ => false
  end.

(** ** The database *)

Inductive collectionName : Type := admin | products | orders | logos.

Record database : Type := mkDatabase {
  adminDocs : list document;
  productDocs : list document;
  orderDocs : list document;
  logoDocs : list document
}.

(** [database.collection(name)] *)
Definition collection (c : collectionName) (db : database) : list document :=
  match c with
  | admin => adminDocs db
  | products => productDocs db
  | orders => orderDocs db
  | logos => logoDocs db
  end.

Definition withCollection (c : collectionName) (docs : list document)
    (db : database) : database :=
  match c with
  | admin => mkDatabase docs (productDocs db) (orderDocs db) (logoDocs db)
  | products => mkDatabase (adminDocs db) docs (orderDocs db) (logoDocs db)
  | orders => mkDatabase (adminDocs db) (productDocs db) docs (logoDocs db)
  | logos => mkDatabase (adminDocs db) (productDocs db) (orderDocs db) docs
  end.

(** The two filters the routes build: [{ _id: new ObjectId(id) }] and an
    equality on one field, [{ email }]. A [null] in an equality filter
    also matches a document without the field. *)
Inductive query : Type :=
| ById (o : ObjectId.t)
| ByField (k : string) (v : value).

Definition matches (q : query) (d : document) : bool :=
  match q with
  | ById o => value_eqb (field "_id" d) (VId o)
  | ByField k v =>
      match v with
      | VUndefined | VNull =>
          match field k d with VUndefined | VNull => true | _ => false end
      | _ => value_eqb (field k d) v
      end
  end.

(** The aggregation stages the routes use:
    [{ $match: { k: { $gte: new Date(t) } } }] and
    [{ $group: { _id: null, out: { $sum: "$k" } } }]. *)
Inductive stage : Type :=
| MatchGte (k : string) (t : Z)
| GroupSum (out : string) (k : string).

(** [$sum] adds the numeric values of the field and ignores the others. *)
Definition sumStep (k : string) (acc : number) (d : document) : number :=
  match field k d with
  | VNum n => nadd acc n
  | _ => acc
  end.

Definition runStage (s : stage) (docs : list document) : list document :=
  match s with
  | MatchGte k t =>
      filter (fun d => match field k d with
                       | VDate t' => t <=? t'
                       | _ => false
                       end) docs
  | GroupSum out k =>
      match docs with
      | [] => []
      | _ => [[("_id", VNull); (out, VNum (fold_left (sumStep k) docs (num 0)))]]
      end
  end.

Definition runPipeline (p : list stage) (docs : list document) : list document :=
  fold_left (fun ds s => runStage s ds) p docs.

(** ** Store calls: state, exceptions and the access log *)

Inductive operation : Type :=
| OpFindOne | OpFind | OpInsertOne | OpUpdateOne | OpDeleteOne | OpAggregate.

Definition access : Type := (operation * collectionName)%type.

Inductive exn : Type :=
| BSONError          (* [new ObjectId] on a malformed id *)
| DuplicateKey       (* insert of an [_id] the collection already has *)
| TypeError          (* property read on [undefined] *)
| IllegalArguments.  (* [bcrypt] called on a non-string *)

Inductive outcome (A : Type) : Type :=
| Returned (a : A)
| Thrown (e : exn).
Arguments Returned {A} a.
Arguments Thrown {A} e.

Definition M (A : Type) : Type :=
  database -> list access -> outcome A * database * list access.

Definition ret {A} (a : A) : M A := fun db log => (Returned a, db, log).

Definition throw {A} (e : exn) : M A := fun db log => (Thrown e, db, log).

Definition bind {A B} (m : M A) (k : A -> M B) : M B :=
  fun db log =>
    match m db log with
    | (Returned a, db', log') => k a db' log'
    | (Thrown e, db', log') => (Thrown e, db', log')
    end.

Notation "x <- m ;; k" := (bind m (fun x => k))
  (at level 61, m at next level, right associativity).

Definition logged (op : operation) (c : collectionName) : M unit :=
  fun db log => (Returned tt, db, log ++ [(op, c)]).

Fixpoint findFirst (q : query) (docs : list document) : option document :=
  match docs with
  | [] => None
  | d :: r => if matches q d then Some d else findFirst q r
  end.

Fixpoint updateFirst (q : query) (updates : document) (docs : list document)
    : list document :=
  match docs with
  | [] => []
  | d :: r =>
      if matches q d then setFields updates d :: r
      else d :: updateFirst q updates r
  end.

Fixpoint deleteFirst (q : query) (docs : list document) : list document :=
  match docs with
  | [] => []
  | d :: r => if matches q d then r else d :: deleteFirst q r
  end.

Definition findOne (c : collectionName) (q : query) : M (option document) :=
  _ <- logged OpFindOne c ;;
  fun db log => (Returned (findFirst q (collection c db)), db, log).

Definition find (c : collectionName) : M (list document) :=
  _ <- logged OpFind c ;;
  fun db log => (Returned (collection c db), db, log).

(** [insertOne(doc)]: a document without [_id] gets the identifier the
    driver generated, written into the caller's object; the collection
    stores it with [_id] in front and refuses an [_id] it already has.
    The result is the caller's object as the call leaves it. *)
Definition insertOne (c : collectionName) (doc : document) (fresh : ObjectId.t)
    : M document :=
  _ <- logged OpInsertOne c ;;
  let doc' :=
    match field "_id" doc with
    | VUndefined | VNull => setField "_id" (VId fresh) doc
    | _ => doc
    end in
  fun db log =>
    if existsb (fun d => value_eqb (field "_id" d) (field "_id" doc'))
         (collection c db)
    then (Thrown DuplicateKey, db, log)
    else (Returned doc',
          withCollection c
            (collection c db ++ [("_id", field "_id" doc') :: removeField "_id" doc'])
            db,
          log).

(** [updateOne(q, { $set: updates })]; the result is [matchedCount]. *)
Definition updateOne (c : collectionName) (q : query) (updates : document) : M Z :=
  _ <- logged OpUpdateOne c ;;
  fun db log =>
    match findFirst q (collection c db) with
    | Some _ =>
        (Returned 1, withCollection c (updateFirst q updates (collection c db)) db, log)
    | None => (Returned 0, db, log)
    end.

(** [deleteOne(q)]; the result is [deletedCount]. *)
Definition deleteOne (c : collectionName) (q : query) : M Z :=
  _ <- logged OpDeleteOne c ;;
  fun db log =>
    match findFirst q (collection c db) with
    | Some _ => (Returned 1, withCollection c (deleteFirst q (collection c db)) db, log)
    | None => (Returned 0, db, log)
    end.

Definition aggregate (c : collectionName) (p : list stage) : M (list document) :=
  _ <- logged OpAggregate c ;;
  fun db log => (Returned (runPipeline p (collection c db)), db, log).

(** [new ObjectId(id)] inside a [try]. *)
Definition newObjectId (id : string) : M ObjectId.t :=
  match ObjectId.new id with
  | Some o => ret o
  | None => throw BSONError
  end.

(** ** Responses *)

(** What a handler passes to [res.json]: an object whose fields are
    scalars, a document, the fixed number series, or a caught error (the
    [Error] object itself, or its [message]); or a stored document; or an
    array of documents. *)
Inductive json : Type :=
| JValue (v : value)
| JObject (d : document)
| JNumbers (l : list number)
| JError (e : exn)
| JErrorMessage (e : exn).

Inductive payload : Type :=
| Obj (fields : list (string * json))
| Doc (d : document)
| Arr (docs : list document).

Record response : Type := mkResponse { status : Z; body : payload }.

Definition handler : Type := database -> response * database * list access.

Definition message (s : string) : string * json := ("message", JValue (VStr s)).

(** [return res.status(code).json(...)] before any store call. *)
Definition respond (code : Z) (fields : list (string * json)) : handler :=
  fun db => (mkResponse code (Obj fields), db, []).

Definition reply (code : Z) (fields : list (string * json)) : M response :=
  ret (mkResponse code (Obj fields)).

Definition replyArray (code : Z) (docs : list document) : M response :=
  ret (mkResponse code (Arr docs)).

(** [try { ... } catch (error) { ... }] around the body of a handler.
    What the body wrote before it threw stays written. *)
Definition tryCatch (m : M response) (onError : exn -> response) : handler :=
  fun db =>
    match m db [] with
    | (Returned r, db', log) => (r, db', log)
    | (Thrown e, db', log) => (onError e, db', log)
    end.

(** [docs[0]?.k || 0] *)
Definition firstOrZero (k : string) (docs : list document) : value :=
  or_else (match docs with d :: _ => field k d | [] => VUndefined end)
          (VNum (num 0)).

(** The three instants [salesStats] computes from the request-time clock:
    [Date.now() - 7 * 24 * 60 * 60 * 1000] is computed here, the first
    instants of the current month and year (local time) are the
    environment's. *)
Record clock : Type := mkClock { now : Z; startOfMonth : Z; startOfYear : Z }.

Definition salesByMonth : list number :=
  map num [3000; 4200; 3500; 5200; 6000; 7200; 8000; 8500; 9000; 9500; 10000; 11000].

Section Handlers.

(** [bcrypt.hash(password, rounds)] with the salt it drew, and
    [bcrypt.compare(password, hash)], on strings. *)
Variable bcrypt_hash : string -> Z -> string -> string.
Variable bcrypt_compare : string -> string -> bool.

Definition bcryptHash (password : value) (rounds : Z) (salt : string) : M string :=
  match password with
  | VStr s => ret (bcrypt_hash s rounds salt)
  | _ => throw IllegalArguments
  end.

Definition bcryptCompare (password hash : value) : M bool :=
  match password, hash with
  | VStr p, VStr h => ret (bcrypt_compare p h)
  | _, _ => throw IllegalArguments
  end.

(** POST /register *)
Definition register (body : document) (salt : string) (fresh : ObjectId.t)
    : handler :=
  let name := field "name" body in
  let email := field "email" body in
  let password := field "password" body in
  let fingerprint := field "fingerprint" body in
  if negb (truthy name) || negb (truthy email) || negb (truthy password) then
    respond 400 [message "Please provide all fields"]
  else
    tryCatch
      (existingAdmin <- findOne admin (ByField "email" email) ;;
       match existingAdmin with
       | Some _ => reply 400 [message "Email already exists"]
       | None =>
           hashedPassword <- bcryptHash password 10 salt ;;
           let newAdmin :=
             [("name", name); ("email", email);
              ("password", VStr hashedPassword);
              ("fingerprint", or_else fingerprint VNull)] in
           _ <- insertOne admin newAdmin fresh ;;
           reply 201 [message "Admin registered successfully"]
       end)
      (fun error =>
         mkResponse 500 (Obj [message "Registration failed"; ("error", JError error)])).

(** POST /login *)
Definition login (body : document) : handler :=
  let email := field "email" body in
  let password := field "password" body in
  if negb (truthy email) || negb (truthy password) then
    respond 400 [message "Email and password are required"]
  else
    tryCatch
      (user <- findOne admin (ByField "email" email) ;;
       match user with
       | None => reply 401 [message "Invalid email or password"]
       | Some user =>
           isPasswordValid <- bcryptCompare password (field "password" user) ;;
           if negb isPasswordValid then
             reply 401 [message "Invalid email or password"]
           else
             reply 200 [message "Login successful";
                        ("id", JValue (field "_id" user));
                        ("email", JValue (field "email" user));
                        ("name", JValue (field "name" user))]
       end)
      (fun error =>
         mkResponse 500 (Obj [message "Error logging in"; ("error", JErrorMessage error)])).

(** [new ObjectId(id)] on a body field: a string is read as hex digits,
    a number makes the driver generate an identifier ([generated]),
    anything else throws. *)
Definition newObjectIdOf (id : value) (generated : ObjectId.t) : M ObjectId.t :=
  match id with
  | VStr s => newObjectId s
  | VId o => ret o
  | VNum _ => ret generated
  | _ => throw BSONError
  end.

(** POST /login-with-id *)
Definition loginWithId (body : document) (generated : ObjectId.t) : handler :=
  let id := field "id" body in
  if negb (truthy id) then respond 400 [message "ID is required"]
  else
    tryCatch
      (o <- newObjectIdOf id generated ;;
       user <- findOne admin (ById o) ;;
       match user with
       | None => reply 401 [message "Invalid ID"]
       | Some user =>
           reply 200 [message "Login successful";
                      ("id", JValue (field "_id" user));
                      ("email", JValue (field "email" user));
                      ("name", JValue (field "name" user))]
       end)
      (fun error =>
         mkResponse 500 (Obj [message "Error logging in"; ("error", JErrorMessage error)])).

(** GET /products and GET /all/products *)
Definition listProducts : handler :=
  tryCatch
    (docs <- find products ;; replyArray 200 docs)
    (fun error =>
       mkResponse 500 (Obj [message "Error fetching products"; ("error", JErrorMessage error)])).

(** POST /products; [file] is [req.file.path] when an image came with
    the request. *)
Definition createProduct (body : document) (file : option string)
    (fresh : ObjectId.t) : handler :=
  let name := field "name" body in
  let category := field "category" body in
  let price := field "price" body in
  let size := field "size" body in
  let description := field "description" body in
  if negb (truthy name) || negb (truthy category) || negb (truthy price)
     || negb (truthy size) then
    respond 400 [message "Please provide all required fields"]
  else
    tryCatch
      (path <- match file with
               | Some p => ret p
               | None => throw TypeError
               end ;;
       let newProduct :=
         [("name", name); ("category", category);
          ("price", VNum (parseFloat price)); ("size", size);
          ("image", VStr path);
          ("description", or_else description (VStr ""))] in
       newProduct <- insertOne products newProduct fresh ;;
       reply 201 [message "Product added successfully";
                  ("product", JObject newProduct)])
      (fun error =>
         mkResponse 500 (Obj [message "Error adding product"; ("error", JErrorMessage error)])).

(** PUT /products/:id *)
Definition updateProduct (id : string) (body : document) : handler :=
  let name := field "name" body in
  let category := field "category" body in
  let price := field "price" body in
  let size := field "size" body in
  let image := field "image" body in
  let description := field "description" body in
  if negb (truthy name) || negb (truthy category) || negb (truthy price)
     || negb (truthy size) then
    respond 400 [message "Please provide all required fields"]
  else
    tryCatch
      (let updatedProduct :=
         [("name", name); ("category", category);
          ("price", VNum (parseFloat price)); ("size", size);
          ("image", or_else image VNull);
          ("description", or_else description (VStr ""))] in
       o <- newObjectId id ;;
       matchedCount <- updateOne products (ById o) updatedProduct ;;
       if matchedCount =? 0 then reply 404 [message "Product not found"]
       else reply 200 [message "Product updated successfully";
                       ("updatedProduct", JObject updatedProduct)])
      (fun error =>
         mkResponse 500 (Obj [message "Error updating product"; ("error", JErrorMessage error)])).

(** DELETE /products/:id *)
Definition deleteProduct (id : string) : handler :=
  tryCatch
    (o <- newObjectId id ;;
     deletedCount <- deleteOne products (ById o) ;;
     if deletedCount =? 0 then reply 404 [message "Product not found"]
     else reply 200 [message "Product deleted successfully"])
    (fun error =>
       mkResponse 500 (Obj [message "Error deleting product"; ("error", JErrorMessage error)])).

(** GET /api/orders *)
Definition listOrders : handler :=
  tryCatch
    (docs <- find orders ;; replyArray 200 docs)
    (fun error =>
       mkResponse 500 (Obj [message "Internal server error"; ("error", JErrorMessage error)])).

(** GET /api/orders/:id *)
Definition getOrder (id : string) : handler :=
  if negb (ObjectId.isValid id) then
    respond 400 [message "Invalid order ID format"]
  else
    tryCatch
      (o <- newObjectId id ;;
       order <- findOne orders (ById o) ;;
       match order with
       | None => reply 404 [message "Order not found"]
       | Some order =>
           reply 200 [("id", JValue (field "_id" order));
                      ("status", JValue (field "status" order))]
       end)
      (fun error =>
         mkResponse 500 (Obj [message "Internal server error"; ("error", JErrorMessage error)])).

(** POST /api/orders/:orderId/complete *)
Definition completeOrder (orderId : string) : handler :=
  if negb (ObjectId.isValid orderId) then
    respond 400 [message "Invalid order ID format"]
  else
    tryCatch
      (o <- newObjectId orderId ;;
       matchedCount <- updateOne orders (ById o) [("status", VStr "complete")] ;;
       if matchedCount =? 0 then reply 404 [message "Order not found"]
       else reply 200 [message "Order status updated to complete"])
      (fun error =>
         mkResponse 500 (Obj [message "Internal server error"; ("error", JErrorMessage error)])).

(** GET /api/admins *)
Definition listAdmins : handler :=
  tryCatch
    (docs <- find admin ;; replyArray 200 docs)
    (fun error => mkResponse 500 (Obj [("error", JValue (VStr "Failed to fetch admins"))])).

(** GET /api/logos *)
Definition listLogos : handler :=
  tryCatch
    (docs <- find logos ;; replyArray 200 docs)
    (fun error =>
       mkResponse 500 (Obj [message "Server error"; ("error", JErrorMessage error)])).

(** GET /api/logos/:id; the whole document is the body. *)
Definition getLogo (id : string) : handler :=
  tryCatch
    (if negb (ObjectId.isValid id) then reply 400 [message "Invalid logo ID format"]
     else
       o <- newObjectId id ;;
       logo <- findOne logos (ById o) ;;
       match logo with
       | None => reply 404 [message "Logo not found"]
       | Some logo => ret (mkResponse 200 (Doc logo))
       end)
    (fun error =>
       mkResponse 500 (Obj [message "Error fetching logo details"; ("error", JErrorMessage error)])).

(** POST /api/logos/:id/complete *)
Definition approveLogo (id : string) : handler :=
  if negb (ObjectId.isValid id) then
    respond 400 [message "Invalid logo ID format"]
  else
    tryCatch
      (o <- newObjectId id ;;
       matchedCount <- updateOne logos (ById o) [("approval", VBool true)] ;;
       if matchedCount =? 0 then reply 404 [message "Logo not found"]
       else reply 200 [message "Logo status updated to complete"])
      (fun error =>
         mkResponse 500 (Obj [message "Internal server error"; ("error", JErrorMessage error)])).

(** GET /api/total *)
Definition totals : handler :=
  tryCatch
    (totalPrice <- aggregate logos [GroupSum "totalPrice" "price"] ;;
     totalAmount <- aggregate orders [GroupSum "totalAmount" "totalAmount"] ;;
     reply 200 [("totalPrice", JValue (firstOrZero "totalPrice" totalPrice));
                ("totalAmount", JValue (firstOrZero "totalAmount" totalAmount))])
    (fun error =>
       mkResponse 500 (Obj [message "Error fetching data"; ("error", JErrorMessage error)])).

(** GET /api/sales-stats *)
Definition salesStats (c : clock) : handler :=
  tryCatch
    (totalSales <- aggregate orders [GroupSum "totalAmount" "totalAmount"] ;;
     weeklySales <- aggregate orders
       [MatchGte "createdAt" (now c - 7 * 24 * 60 * 60 * 1000);
        GroupSum "totalAmount" "totalAmount"] ;;
     monthlySales <- aggregate orders
       [MatchGte "createdAt" (startOfMonth c); GroupSum "totalAmount" "totalAmount"] ;;
     yearlySales <- aggregate orders
       [MatchGte "createdAt" (startOfYear c); GroupSum "totalAmount" "totalAmount"] ;;
     reply 200 [("weeklySales", JValue (firstOrZero "totalAmount" weeklySales));
                ("monthlySales", JValue (firstOrZero "totalAmount" monthlySales));
                ("yearlySales", JValue (firstOrZero "totalAmount" yearlySales));
                ("totalSales", JValue (firstOrZero "totalAmount" totalSales));
                ("salesByMonth", JNumbers salesByMonth)])
    (fun error =>
       mkResponse 500 (Obj [message "Internal server error"; ("error", JErrorMessage error)])).

(** ** The API as a whole *)

Inductive request : Type :=
| PostRegister (body : document) (salt : string) (fresh : ObjectId.t)
| PostLogin (body : document)
| PostLoginWithId (body : document) (generated : ObjectId.t)
| GetProducts
| PostProducts (body : document) (file : option string) (fresh : ObjectId.t)
| PutProduct (id : string) (body : document)
| DeleteProduct (id : string)
| GetAllProducts
| GetOrders
| GetOrder (id : string)
| PostOrderComplete (orderId : string)
| GetAdmins
| GetLogos
| GetLogo (id : string)
| PostLogoComplete (id : string)
| GetTotal
| GetSalesStats (c : clock).

Definition route (r : request) : handler :=
  match r with
  | PostRegister body salt fresh => register body salt fresh
  | PostLogin body => login body
  | PostLoginWithId body generated => loginWithId body generated
  | GetProducts => listProducts
  | PostProducts body file fresh => createProduct body file fresh
  | PutProduct id body => updateProduct id body
  | DeleteProduct id => deleteProduct id
  | GetAllProducts => listProducts
  | GetOrders => listOrders
  | GetOrder id => getOrder id
  | PostOrderComplete orderId => completeOrder orderId
  | GetAdmins => listAdmins
  | GetLogos => listLogos
  | GetLogo id => getLogo id
  | PostLogoComplete id => approveLogo id
  | GetTotal => totals
  | GetSalesStats c => salesStats c
  end.

(** [ensureDatabaseInitialized] in front of every route: [database] is
    [undefined] until the connection is made. *)
Definition ensureDatabaseInitialized (r : request) (connected : option database)
    : response * option database * list access :=
  match connected with
  | None =>
      (mkResponse 500
         (Obj [message "Database not initialized. Please try again later."]),
       None, [])
  | Some db => let '(res, db', log) := route r db in (res, Some db', log)
  end.

(** A sequence of requests served one after the other. *)
Fixpoint serveAll (rs : list request) (db : database) : database :=
  match rs with
  | [] => db
  | r :: rest => let '(_, db', _) := route r db in serveAll rest db'
  end.

End Handlers.

(** ** Vocabulary of the statements *)

Definition responseOf (x : response * database * list access) : response := fst (fst x).
Definition databaseOf (x : response * database * list access) : database := snd (fst x).
Definition accessesOf (x : response * database * list access) : list access := snd x.

(** Some document of the collection carries the identifier [o]. *)
Definition hasId (o : ObjectId.t) (docs : list document) : bool :=
  existsb (fun d => value_eqb (field "_id" d) (VId o)) docs.

(** How many documents carry [v] as their [email]. *)
Definition countEmail (v : value) (docs : list document) : nat :=
  List.length (filter (fun d => value_eqb (field "email" d) v) docs).







(** A value reached by this API and not left again: [v] in field [k]. The
    two collections are compared document by document. *)
Definition keeps (k : string) (v : value) (before after : list document) : Prop :=
  Forall2 (fun d d' => field "_id" d' = field "_id" d
                       /\ (field k d = v -> field k d' = v)) before after.

(** What no request undoes: a completed order stays completed and an
    approved logo stays approved. *)
Definition monotone (db db' : database) : Prop :=
  keeps "status" (VStr "complete") (orderDocs db) (orderDocs db')
  /\ keeps "approval" (VBool true) (logoDocs db) (logoDocs db').

(** The admin collection is the same before and after. *)
Definition sameAdmins (db db' : database) : Prop := adminDocs db' = adminDocs db.

(** A store computation that takes every database to one related to it. *)
Definition stable (R : database -> database -> Prop) {A} (m : M A) : Prop :=
  forall db log, R db (snd (fst (m db log))).

(** No email is registered twice. *)
Definition uniqueEmails (db : database) : Prop :=
  forall email, (countEmail (VStr email) (adminDocs db) <= 1)%nat.

(** The document [register] inserts. *)
Definition adminRecord (hash : string -> Z -> string -> string)
    (body : document) (pw salt : string) (fresh : ObjectId.t) : document :=
  [("_id", VId fresh); ("name", field "name" body); ("email", field "email" body);
   ("password", VStr (hash pw 10 salt));
   ("fingerprint", or_else (field "fingerprint" body) VNull)].

(** Field [k] of the object a handler answered with. *)
Definition answered (k : string) (r : response) : option json :=
  match body r with
  | Obj fields =>
      match List.find (fun kv => String.eqb k (fst kv)) fields with
      | Some kv => Some (snd kv)
      | None => None
      end
  | _ => None
  end.

(** ** Sample data for the concrete runs *)

(** A stand-in for [bcrypt] that meets its contract: the hash is the
    password itself. *)
Definition plainHash (pw : string) (rounds : Z) (salt : string) : string := pw.
Definition plainCompare (pw h : string) : bool := String.eqb pw h.

Definition oid (s : string) : ObjectId.t :=
  match ObjectId.new s with Some o => o | None => [] end.

Definition sampleOrder : document :=
  [("_id", VId (oid "507f1f77bcf86cd799439011")); ("status", VStr "pending");
   ("totalAmount", VNum (Fin (2599 # 100))); ("createdAt", VDate 1700000000000)].

Definition sampleLogo : document :=
  [("_id", VId (oid "507f191e810c19729de860ea")); ("approval", VBool false);
   ("price", VNum (num 150))].

Definition sampleProduct : document :=
  [("_id", VId (oid "65a1b2c3d4e5f60718293a4b")); ("name", VStr "Home jersey");
   ("category", VStr "jerseys"); ("price", VNum (num 45)); ("size", VStr "M");
   ("image", VStr "https://res.cloudinary.com/demo/products/home.png");
   ("description", VStr "2024 season")].

Definition sampleDb : database :=
  mkDatabase [] [sampleProduct] [sampleOrder] [sampleLogo].

Definition sampleRegistration : document :=
  [("name", VStr "Ann"); ("email", VStr "ann@jersey.shop"); ("password", VStr "s3cret")].

Definition sampleProductBody : document :=
  [("name", VStr "Away jersey"); ("category", VStr "jerseys"); ("price", VStr "abc");
   ("size", VStr "L")].

(** ** Vocabulary of the further statements *)

(** The requests that are reads: every GET, and the two logins. *)
Definition readOnly (r : request) : bool :=
  match r with
  | PostRegister _ _ _ | PostProducts _ _ _ | PutProduct _ _ | DeleteProduct _
  | PostOrderComplete _ | PostLogoComplete _ => false
  | _ => true
  end.

(** The one collection a request may write, if any. *)
Definition target (r : request) : option collectionName :=
  match r with
  | PostRegister _ _ _ => Some admin
  | PostProducts _ _ _ | PutProduct _ _ | DeleteProduct _ => Some products
  | PostOrderComplete _ => Some orders
  | PostLogoComplete _ => Some logos
  | _ => None
  end.

(** Collection [c] is the same before and after. *)
Definition keepsCollection (c : collectionName) (db db' : database) : Prop :=
  collection c db' = collection c db.

(** Two collections hold, document by document, the same values in the
    fields [ks]. *)
Definition agree (ks : list string) (docs docs' : list document) : Prop :=
  Forall2 (fun d d' => forall k, In k ks -> field k d' = field k d) docs docs'.

(** The order carries a date in [createdAt], not before [t]. *)
Definition createdSince (t : Z) (d : document) : bool :=
  match field "createdAt" d with
  | VDate t' => t <=? t'
  | _ => false
  end.

(** The object [updateProduct] passes to [$set]. *)
Definition productUpdate (body : document) : document :=
  [("name", field "name" body); ("category", field "category" body);
   ("price", VNum (parseFloat (field "price" body))); ("size", field "size" body);
   ("image", or_else (field "image" body) VNull);
   ("description", or_else (field "description" body) (VStr ""))].

(** The document [createProduct] stores. *)
Definition productRecord (body : document) (path : string) (fresh : ObjectId.t)
    : document :=
  [("_id", VId fresh); ("name", field "name" body);
   ("category", field "category" body);
   ("price", VNum (parseFloat (field "price" body))); ("size", field "size" body);
   ("image", VStr path);
   ("description", or_else (field "description" body) (VStr ""))].

(** All four required fields of a product body are given. *)
Definition productFieldsGiven (body : document) : bool :=
  truthy (field "name" body) && truthy (field "category" body)
  && truthy (field "price" body) && truthy (field "size" body).

(** More sample data. *)



Definition sampleNewProduct : document :=
  [("name", VStr "Away jersey"); ("category", VStr "jerseys"); ("price", VStr "59.90");
   ("size", VStr "L"); ("description", VStr "Limited edition")].

Definition sampleAdmin : document :=
  adminRecord plainHash sampleRegistration "s3cret" "salt-1"
    (oid "aaaaaaaaaaaaaaaaaaaaaaaa").

Definition sampleAdminDb : database :=
  mkDatabase [sampleAdmin] [sampleProduct] [sampleOrder] [sampleLogo].

Definition sampleUndatedDb : database :=
  mkDatabase [] []
    [[("_id", VId (oid "507f1f77bcf86cd799439012")); ("totalAmount", VNum (num 10));
      ("createdAt", VStr "2023-11-14")]] [].

Definition sampleClock : clock :=
  mkClock 1700000300000 1698796800000 1672531200000.

(** ** Fields of a document *)

Lemma field_setField_same k v d : field k (setField k v d) = v.
Proof.
  induction d as [|[k' v'] r IH]; simpl.
  - now rewrite String.eqb_refl.
  - destruct (String.eqb k k') eqn:E; simpl; rewrite E; auto.
Qed.

Lemma field_setField_other k k' v d :
  k <> k' -> field k (setField k' v d) = field k d.
Proof.
  intros N. induction d as [|[k0 v0] r IH]; simpl.
  - destruct (String.eqb_spec k k'); [contradiction | reflexivity].
  - destruct (String.eqb_spec k' k0) as [->|]; simpl.
    + destruct (String.eqb_spec k k0); [contradiction | reflexivity].
    + destruct (String.eqb k k0); auto.
Qed.

Lemma setField_idempotent k v d :
  setField k v (setField k v d) = setField k v d.
Proof.
  induction d as [|[k' v'] r IH]; simpl.
  - now rewrite String.eqb_refl.
  - destruct (String.eqb k k') eqn:E; simpl; rewrite E; congruence.
Qed.

(** ** Identifiers *)

Lemma ObjectId_eqb_eq a b : ObjectId.eqb a b = true <-> a = b.
Proof.
  unfold ObjectId.eqb. destruct (list_eq_dec Byte.byte_eq_dec a b); split; congruence.
Qed.

Lemma ObjectId_eqb_refl a : ObjectId.eqb a a = true.
Proof. now apply ObjectId_eqb_eq. Qed.

Lemma isValid_new id : ObjectId.isValid id = true <-> exists o, ObjectId.new id = Some o.
Proof.
  unfold ObjectId.isValid. destruct (ObjectId.new id); split; intros H.
  - eauto.
  - reflexivity.
  - discriminate.
  - destruct H; discriminate.
Qed.

Lemma matches_ById o d : matches (ById o) d = true <-> field "_id" d = VId o.
Proof.
  simpl. split; intros H.
  - destruct (field "_id" d); simpl in H; try discriminate.
    apply ObjectId_eqb_eq in H. now subst.
  - rewrite H. simpl. apply ObjectId_eqb_refl.
Qed.

(** ** The first match of a filter *)

Lemma findFirst_Some q docs d :
  findFirst q docs = Some d ->
  exists before after,
    docs = before ++ d :: after /\ matches q d = true
    /\ findFirst q before = None
    /\ deleteFirst q docs = before ++ after
    /\ forall u, updateFirst q u docs = before ++ setFields u d :: after.
Proof.
  induction docs as [|x r IH]; simpl; [discriminate|].
  destruct (matches q x) eqn:E; intros H.
  - inversion H; subst. exists [], r. simpl. auto.
  - destruct (IH H) as (b & a & -> & Hm & Hb & Hd & Hu).
    exists (x :: b), a. simpl. rewrite E, Hd. repeat split; auto.
    intros u. now rewrite Hu.
Qed.

Lemma findFirst_None q docs :
  findFirst q docs = None <-> forallb (fun d => negb (matches q d)) docs = true.
Proof.
  induction docs as [|x r IH]; simpl; [tauto|].
  destruct (matches q x); simpl; [split; discriminate | exact IH].
Qed.

Lemma findFirst_app q l1 l2 :
  findFirst q (l1 ++ l2) =
  match findFirst q l1 with Some d => Some d | None => findFirst q l2 end.
Proof.
  induction l1 as [|x r IH]; simpl; [reflexivity|].
  destruct (matches q x); auto.
Qed.

Lemma findFirst_updateFirst q u docs :
  (forall d, matches q d = true -> matches q (setFields u d) = true) ->
  findFirst q (updateFirst q u docs) = option_map (setFields u) (findFirst q docs).
Proof.
  intros keep. induction docs as [|x r IH]; simpl; [reflexivity|].
  destruct (matches q x) eqn:E; simpl.
  - now rewrite (keep x E).
  - now rewrite E.
Qed.

Lemma updateFirst_idempotent q u docs :
  (forall d, matches q d = true -> matches q (setFields u d) = true) ->
  (forall d, setFields u (setFields u d) = setFields u d) ->
  updateFirst q u (updateFirst q u docs) = updateFirst q u docs.
Proof.
  intros keep idem. induction docs as [|x r IH]; simpl; [reflexivity|].
  destruct (matches q x) eqn:E; simpl.
  - now rewrite (keep x E), idem.
  - now rewrite E, IH.
Qed.

Lemma withCollection_collection c docs db :
  collection c (withCollection c docs db) = docs.
Proof. now destruct c. Qed.

Lemma withCollection_twice c docs docs' db :
  withCollection c docs (withCollection c docs' db) = withCollection c docs db.
Proof. now destruct c. Qed.

Lemma withCollection_same c db : withCollection c (collection c db) db = db.
Proof. now destruct c, db. Qed.

(** ** Running a handler *)

(** Unfolds the store calls of a handler down to the collections. *)
Ltac run :=
  cbv beta iota delta
    [tryCatch bind logged findOne find updateOne deleteOne insertOne aggregate
     newObjectId ret throw reply replyArray respond];
  simpl.

Lemma before_connection_500 hash compare r :
  ensureDatabaseInitialized hash compare r None =
    (mkResponse 500 (Obj [message "Database not initialized. Please try again later."]),
     None, []).
Proof. reflexivity. Qed.

Lemma after_connection_routes hash compare r db :
  ensureDatabaseInitialized hash compare r (Some db) =
    (responseOf (route hash compare r db),
     Some (databaseOf (route hash compare r db)),
     accessesOf (route hash compare r db)).
Proof.
  unfold ensureDatabaseInitialized, responseOf, databaseOf, accessesOf.
  now destruct (route hash compare r db) as [[res db'] log].
Qed.

(** ** Completing an order, then reading it *)

Lemma complete_keeps_id o d :
  matches (ById o) d = true ->
  matches (ById o) (setFields [("status", VStr "complete")] d) = true.
Proof.
  rewrite !matches_ById. intros H. unfold setFields; simpl.
  rewrite field_setField_other; [assumption | discriminate].
Qed.

Lemma completeOrder_found db id o order :
  ObjectId.new id = Some o ->
  findFirst (ById o) (orderDocs db) = Some order ->
  completeOrder id db =
    (mkResponse 200 (Obj [message "Order status updated to complete"]),
     withCollection orders
       (updateFirst (ById o) [("status", VStr "complete")] (orderDocs db)) db,
     [(OpUpdateOne, orders)]).
Proof.
  intros Hid Hfind. unfold completeOrder, ObjectId.isValid.
  rewrite Hid. simpl. run. rewrite Hid. simpl. now rewrite Hfind.
Qed.

Lemma getOrder_found db id o order :
  ObjectId.new id = Some o ->
  findFirst (ById o) (orderDocs db) = Some order ->
  getOrder id db =
    (mkResponse 200 (Obj [("id", JValue (VId o));
                          ("status", JValue (field "status" order))]),
     db, [(OpFindOne, orders)]).
Proof.
  intros Hid Hfind. unfold getOrder, ObjectId.isValid.
  rewrite Hid. simpl. run. rewrite Hid. simpl. rewrite Hfind. simpl.
  destruct (findFirst_Some _ _ _ Hfind) as (_ & _ & _ & Hm & _).
  apply matches_ById in Hm. now rewrite Hm.
Qed.

(** C1. For an id that matches an order, [completeOrder] succeeds, a
    following [getOrder] answers 200 with status ["complete"], and a
    second [completeOrder] succeeds as well and leaves the database as the
    first one left it. *)
Theorem completeOrder_getOrder_idempotent db id o order :
  ObjectId.new id = Some o ->
  findFirst (ById o) (orderDocs db) = Some order ->
  let once := completeOrder id db in
  let twice := completeOrder id (databaseOf once) in
  responseOf once = mkResponse 200 (Obj [message "Order status updated to complete"])
  /\ responseOf (getOrder id (databaseOf once)) =
       mkResponse 200 (Obj [("id", JValue (VId o)); ("status", JValue (VStr "complete"))])
  /\ responseOf twice = responseOf once
  /\ databaseOf twice = databaseOf once.
Proof.
  intros Hid Hfind once twice.
  assert (Hfind' :
    findFirst (ById o) (orderDocs (databaseOf once)) =
      Some (setFields [("status", VStr "complete")] order)).
  { subst once. rewrite (completeOrder_found _ _ _ _ Hid Hfind).
    unfold databaseOf; simpl.
    rewrite findFirst_updateFirst by apply complete_keeps_id.
    now rewrite Hfind. }
  subst twice.
  rewrite (completeOrder_found _ _ _ _ Hid Hfind').
  rewrite (getOrder_found _ _ _ _ Hid Hfind').
  subst once. rewrite (completeOrder_found _ _ _ _ Hid Hfind).
  unfold responseOf, databaseOf; simpl.
  repeat split.
  - unfold setFields; simpl. now rewrite field_setField_same.
  - rewrite updateFirst_idempotent; [reflexivity | apply complete_keeps_id |].
    intros d. unfold setFields; simpl. apply setField_idempotent.
Qed.

(** ** Reading an order *)

(** C5. An id that is not a well-formed identifier is answered 400
    "Invalid order ID format" with the database untouched and no store
    call made; an id that matches an order is answered 200 with an object
    of two fields, the order's [_id] and its [status]. *)
Theorem getOrder_validates_then_projects db id :
  (ObjectId.isValid id = false ->
   getOrder id db =
     (mkResponse 400 (Obj [message "Invalid order ID format"]), db, []))
  /\ (forall o order,
        ObjectId.new id = Some o ->
        findFirst (ById o) (orderDocs db) = Some order ->
        getOrder id db =
          (mkResponse 200 (Obj [("id", JValue (field "_id" order));
                                ("status", JValue (field "status" order))]),
           db, [(OpFindOne, orders)])).
Proof.
  split.
  - intros H. unfold getOrder. rewrite H. reflexivity.
  - intros o order Hid Hfind.
    rewrite (getOrder_found _ _ _ _ Hid Hfind).
    destruct (findFirst_Some _ _ _ Hfind) as (_ & _ & _ & Hm & _).
    apply matches_ById in Hm. now rewrite Hm.
Qed.

(** ** Deleting a product *)

Lemma hasId_findFirst o docs :
  hasId o docs = false <-> findFirst (ById o) docs = None.
Proof.
  unfold hasId. induction docs as [|x r IH]; simpl; [tauto|].
  destruct (value_eqb (field "_id" x) (VId o)); simpl; [split; discriminate | exact IH].
Qed.

(** C6. With a well-formed id: when no product carries it, the answer is
    404 "Product not found" and the database is unchanged; when a product
    carries it, the answer is 200 and the products collection is the old
    one without that document (the first to carry the id), every other
    document and collection as before. *)
Theorem deleteProduct_removes_exactly_one db id o :
  ObjectId.new id = Some o ->
  (findFirst (ById o) (productDocs db) = None ->
   deleteProduct id db =
     (mkResponse 404 (Obj [message "Product not found"]), db,
      [(OpDeleteOne, products)]))
  /\ (forall p,
        findFirst (ById o) (productDocs db) = Some p ->
        exists before after,
          productDocs db = before ++ p :: after
          /\ hasId o before = false
          /\ deleteProduct id db =
               (mkResponse 200 (Obj [message "Product deleted successfully"]),
                mkDatabase (adminDocs db) (before ++ after) (orderDocs db) (logoDocs db),
                [(OpDeleteOne, products)])).
Proof.
  intros Hid. split.
  - intros Hnone. unfold deleteProduct. run. rewrite Hid. simpl.
    now rewrite Hnone.
  - intros p Hfind.
    destruct (findFirst_Some _ _ _ Hfind) as (b & a & Hsplit & _ & Hb & Hdel & _).
    exists b, a. repeat split; [assumption | now apply hasId_findFirst |].
    unfold deleteProduct. run. rewrite Hid. simpl. rewrite Hfind. simpl.
    now rewrite Hdel.
Qed.

(** ** The monthly series of the sales statistics *)

(** C8. Whatever the database holds and whatever the clock says,
    [salesStats] answers 200 and its [salesByMonth] is the same series of
    twelve numbers. *)
Theorem salesByMonth_is_constant (c : clock) (db : database) :
  let r := responseOf (salesStats c db) in
  status r = 200
  /\ answered "salesByMonth" r =
       Some (JNumbers (map num [3000; 4200; 3500; 5200; 6000; 7200;
                                8000; 8500; 9000; 9500; 10000; 11000]))
  /\ List.length salesByMonth = 12%nat.
Proof.
  repeat split.
Qed.

(** ** Updating and creating a product *)

Lemma matches_ById_setField o k v d :
  k <> "_id" -> matches (ById o) d = true -> matches (ById o) (setField k v d) = true.
Proof.
  intros N. rewrite !matches_ById. intros H.
  rewrite field_setField_other; [assumption | congruence].
Qed.

(** C10. For a product that exists, an update with the required fields
    and no [image] in the body is answered 200, and the stored product
    then has [image] equal to [null], whatever it held before; when the
    body has no [description] either, the stored [description] is the
    empty string. *)
Theorem updateProduct_without_image_stores_null db id o p body :
  ObjectId.new id = Some o ->
  findFirst (ById o) (productDocs db) = Some p ->
  truthy (field "name" body) = true ->
  truthy (field "category" body) = true ->
  truthy (field "price" body) = true ->
  truthy (field "size" body) = true ->
  field "image" body = VUndefined ->
  let r := updateProduct id body db in
  status (responseOf r) = 200
  /\ exists p',
       findFirst (ById o) (productDocs (databaseOf r)) = Some p'
       /\ field "image" p' = VNull
       /\ (field "description" body = VUndefined -> field "description" p' = VStr "").
Proof.
  intros Hid Hfind Hn Hc Hp Hs Hi r. subst r. unfold updateProduct.
  rewrite Hn, Hc, Hp, Hs, Hi. simpl. run. rewrite Hid. simpl. rewrite Hfind. simpl.
  unfold responseOf, databaseOf; simpl. split; [reflexivity|].
  rewrite findFirst_updateFirst, Hfind.
  - simpl. eexists. split; [reflexivity|]. unfold setFields; simpl. split.
    + rewrite field_setField_other by discriminate. apply field_setField_same.
    + intros Hd. rewrite Hd. apply field_setField_same.
  - intros d Hm. unfold setFields; simpl.
    repeat (apply matches_ById_setField; [discriminate|]). exact Hm.
Qed.

(** C9. With name, category and size given, an image uploaded and the
    price ["abc"], [createProduct] answers 201 with the created record and
    appends to the products collection a document whose [price] is [NaN]. *)
Theorem createProduct_abc_stores_NaN db body path fresh :
  truthy (field "name" body) = true ->
  truthy (field "category" body) = true ->
  truthy (field "size" body) = true ->
  field "price" body = VStr "abc" ->
  hasId fresh (productDocs db) = false ->
  let created :=
    [("name", field "name" body); ("category", field "category" body);
     ("price", VNum NaN); ("size", field "size" body); ("image", VStr path);
     ("description", or_else (field "description" body) (VStr ""))] in
  createProduct body (Some path) fresh db =
    (mkResponse 201 (Obj [message "Product added successfully";
                          ("product", JObject (created ++ [("_id", VId fresh)]))]),
     mkDatabase (adminDocs db)
                (productDocs db ++ [("_id", VId fresh) :: created])
                (orderDocs db) (logoDocs db),
     [(OpInsertOne, products)]).
Proof.
  intros Hn Hc Hs Hp Hfresh created. subst created. unfold createProduct.
  rewrite Hn, Hc, Hs, Hp. simpl. run.
  unfold hasId in Hfresh. rewrite Hfresh. reflexivity.
Qed.

(** ** Totals *)













Lemma totals_run db :
  totals db =
    (mkResponse 200
       (Obj [("totalPrice",
              JValue (firstOrZero "totalPrice"
                        (runPipeline [GroupSum "totalPrice" "price"] (logoDocs db))));
             ("totalAmount",
              JValue (firstOrZero "totalAmount"
                        (runPipeline [GroupSum "totalAmount" "totalAmount"]
                           (orderDocs db))))]),
     db, [(OpAggregate, logos); (OpAggregate, orders)]).
Proof. reflexivity. Qed.


(** ** Terminal values: completed orders, approved logos *)

Lemma keeps_refl k v docs : keeps k v docs docs.
Proof. induction docs; constructor; auto. Qed.

Lemma keeps_trans k v a b c : keeps k v a b -> keeps k v b c -> keeps k v a c.
Proof.
  intros Hab. revert c. induction Hab as [|x y l l' [Hi Hk] _ IH]; intros c Hbc.
  - inversion Hbc. constructor.
  - inversion Hbc as [|y' z m m' [Hi' Hk'] Hrest]; subst. constructor.
    + split; [congruence | auto].
    + now apply IH.
Qed.

Lemma keeps_updateFirst k v q u docs :
  (forall d, field "_id" (setFields u d) = field "_id" d) ->
  (forall d, field k d = v -> field k (setFields u d) = v) ->
  keeps k v docs (updateFirst q u docs).
Proof.
  intros Hid Hk. induction docs as [|d r IH]; simpl; [constructor|].
  destruct (matches q d).
  - constructor; [split; auto | apply keeps_refl].
  - constructor; [split; auto | exact IH].
Qed.

Lemma monotone_refl db : monotone db db.
Proof. split; apply keeps_refl. Qed.

Lemma monotone_trans a b c : monotone a b -> monotone b c -> monotone a c.
Proof. intros [H1 H2] [H3 H4]. split; eapply keeps_trans; eauto. Qed.

Lemma monotone_elsewhere db db' :
  orderDocs db' = orderDocs db -> logoDocs db' = logoDocs db -> monotone db db'.
Proof. intros Ho Hl. split; rewrite ?Ho, ?Hl; apply keeps_refl. Qed.

Section Stability.

Variable R : database -> database -> Prop.
Hypothesis R_refl : forall db, R db db.
Hypothesis R_trans : forall a b c, R a b -> R b c -> R a c.

Lemma stable_ret {A} (a : A) : stable R (ret a).
Proof. intros db log. apply R_refl. Qed.

Lemma stable_throw {A} e : stable R (@throw A e).
Proof. intros db log. apply R_refl. Qed.

Lemma stable_logged op c : stable R (logged op c).
Proof. intros db log. apply R_refl. Qed.

Lemma stable_bind {A B} (m : M A) (k : A -> M B) :
  stable R m -> (forall a, stable R (k a)) -> stable R (bind m k).
Proof.
  intros Hm Hk db log. unfold bind. specialize (Hm db log).
  destruct (m db log) as [[[a|e] db'] log']; simpl in *; [|assumption].
  eapply R_trans; [exact Hm | apply Hk].
Qed.

Lemma stable_findOne c q : stable R (findOne c q).
Proof. intros db log. apply R_refl. Qed.

Lemma stable_find c : stable R (find c).
Proof. intros db log. apply R_refl. Qed.

Lemma stable_aggregate c p : stable R (aggregate c p).
Proof. intros db log. apply R_refl. Qed.

Lemma stable_tryCatch m onError db :
  stable R m -> R db (databaseOf (tryCatch m onError db)).
Proof.
  intros Hm. unfold tryCatch, databaseOf. specialize (Hm db []).
  now destruct (m db []) as [[[r|e] db'] log'].
Qed.

Lemma stable_respond code fields db : R db (databaseOf (respond code fields db)).
Proof. apply R_refl. Qed.

End Stability.

Lemma stable_insertOne_admin doc fresh : stable monotone (insertOne admin doc fresh).
Proof.
  intros db log. unfold insertOne, bind, logged. simpl.
  destruct (existsb _ _); simpl; now apply monotone_elsewhere.
Qed.

Lemma stable_insertOne_products doc fresh :
  stable monotone (insertOne products doc fresh).
Proof.
  intros db log. unfold insertOne, bind, logged. simpl.
  destruct (existsb _ _); simpl; now apply monotone_elsewhere.
Qed.

Lemma stable_updateOne_products q u : stable monotone (updateOne products q u).
Proof.
  intros db log. unfold updateOne, bind, logged. simpl.
  destruct (findFirst _ _); simpl; now apply monotone_elsewhere.
Qed.

Lemma stable_deleteOne_products q : stable monotone (deleteOne products q).
Proof.
  intros db log. unfold deleteOne, bind, logged. simpl.
  destruct (findFirst _ _); simpl; now apply monotone_elsewhere.
Qed.

Lemma stable_complete q :
  stable monotone (updateOne orders q [("status", VStr "complete")]).
Proof.
  intros db log. unfold updateOne, bind, logged. simpl.
  destruct (findFirst _ _); simpl; [|apply monotone_refl].
  split; simpl; [|apply keeps_refl].
  apply keeps_updateFirst; intros x; unfold setFields; simpl.
  - apply field_setField_other. discriminate.
  - intros _. apply field_setField_same.
Qed.

Lemma stable_approve q :
  stable monotone (updateOne logos q [("approval", VBool true)]).
Proof.
  intros db log. unfold updateOne, bind, logged. simpl.
  destruct (findFirst _ _); simpl; [|apply monotone_refl].
  split; simpl; [apply keeps_refl|].
  apply keeps_updateFirst; intros x; unfold setFields; simpl.
  - apply field_setField_other. discriminate.
  - intros _. apply field_setField_same.
Qed.

Lemma sameAdmins_refl db : sameAdmins db db.
Proof. reflexivity. Qed.

Lemma sameAdmins_trans a b c : sameAdmins a b -> sameAdmins b c -> sameAdmins a c.
Proof. unfold sameAdmins. congruence. Qed.

Lemma sameAdmins_insertOne_products doc fresh :
  stable sameAdmins (insertOne products doc fresh).
Proof.
  intros db log. unfold insertOne, bind, logged. simpl.
  now destruct (existsb _ _).
Qed.

Lemma sameAdmins_updateOne c q u : c <> admin -> stable sameAdmins (updateOne c q u).
Proof.
  intros Hc db log. unfold updateOne, bind, logged. simpl.
  destruct (findFirst _ _); [|reflexivity]. now destruct c.
Qed.

Lemma sameAdmins_deleteOne c q : c <> admin -> stable sameAdmins (deleteOne c q).
Proof.
  intros Hc db log. unfold deleteOne, bind, logged. simpl.
  destruct (findFirst _ _); [|reflexivity]. now destruct c.
Qed.

Create HintDb stable.
#[local] Hint Resolve monotone_refl sameAdmins_refl : stable.
#[local] Hint Resolve stable_ret stable_throw stable_logged stable_findOne stable_find
  stable_aggregate stable_insertOne_admin stable_insertOne_products
  stable_updateOne_products stable_deleteOne_products stable_complete
  stable_approve sameAdmins_insertOne_products : stable.
#[local] Hint Extern 1 (stable sameAdmins (updateOne _ _ _)) =>
  apply sameAdmins_updateOne; discriminate : stable.
#[local] Hint Extern 1 (stable sameAdmins (deleteOne _ _)) =>
  apply sameAdmins_deleteOne; discriminate : stable.

Ltac stab trans :=
  repeat first
    [ solve [auto with stable]
    | apply (stable_bind _ trans); [|intro]
    | progress unfold reply, replyArray, newObjectId, newObjectIdOf,
        bcryptHash, bcryptCompare
    | match goal with
      | |- stable _ (match ?x with _ => _ end) => destruct x
      end ].

Ltac guarded :=
  match goal with
  | |- _ _ (databaseOf ((if ?b then _ else _) _)) => destruct b
  end.

Ltac unfold_routes :=
  unfold register, login, loginWithId, listProducts, createProduct, updateProduct,
    deleteProduct, listOrders, getOrder, completeOrder, listAdmins, listLogos,
    getLogo, approveLogo, totals, salesStats.

Lemma route_monotone hash compare (r : request) (db : database) :
  monotone db (databaseOf (route hash compare r db)).
Proof.
  destruct r; simpl; unfold_routes;
    try guarded; try apply monotone_refl;
    apply (stable_tryCatch monotone); stab monotone_trans.
Qed.

(** C2. Along any sequence of requests, every order and every logo keeps
    its place and its identifier, an order whose status is ["complete"]
    still has status ["complete"] afterwards, and a logo whose approval is
    [true] still has approval [true]. *)
Theorem terminal_values_are_kept hash compare (rs : list request) (db : database) :
  let db' := serveAll hash compare rs db in
  Forall2 (fun d d' => field "_id" d' = field "_id" d
                       /\ (field "status" d = VStr "complete" ->
                           field "status" d' = VStr "complete"))
          (orderDocs db) (orderDocs db')
  /\ Forall2 (fun d d' => field "_id" d' = field "_id" d
                          /\ (field "approval" d = VBool true ->
                              field "approval" d' = VBool true))
             (logoDocs db) (logoDocs db').
Proof.
  change (monotone db (serveAll hash compare rs db)).
  revert db. induction rs as [|r rest IH]; intros db; simpl.
  - apply monotone_refl.
  - pose proof (route_monotone hash compare r db) as H.
    destruct (route hash compare r db) as [[res db1] log]. simpl in H.
    eapply monotone_trans; [exact H | apply IH].
Qed.

(** ** Registration and login *)

Lemma number_eqb_refl n : number_eqb n n = true.
Proof. destruct n; simpl; auto using Qeq_bool_refl. Qed.

Lemma value_eqb_refl v : value_eqb v v = true.
Proof.
  destruct v; simpl; auto using number_eqb_refl, String.eqb_refl,
    ObjectId_eqb_refl, Z.eqb_refl, Bool.eqb_reflx.
Qed.

Lemma matches_ByField_truthy k v d :
  truthy v = true -> matches (ByField k v) d = value_eqb (field k d) v.
Proof. destruct v; simpl; intros H; try discriminate; reflexivity. Qed.

Lemma truthy_VStr s : truthy (VStr s) = true <-> s <> "".
Proof.
  simpl. destruct (String.eqb_spec s ""); simpl; split; intros H;
    congruence || discriminate || reflexivity.
Qed.

Lemma countEmail_app v l1 l2 :
  countEmail v (l1 ++ l2) = (countEmail v l1 + countEmail v l2)%nat.
Proof. unfold countEmail. now rewrite filter_app, length_app. Qed.

Lemma countEmail_none v docs :
  truthy v = true ->
  findFirst (ByField "email" v) docs = None -> countEmail v docs = 0%nat.
Proof.
  intros Hv. unfold countEmail. induction docs as [|d r IH]; simpl; [reflexivity|].
  change (match v with
          | VUndefined | VNull =>
              match field "email" d with VUndefined | VNull => true | _ => false end
          | _ => value_eqb (field "email" d) v
          end) with (matches (ByField "email" v) d).
  rewrite (matches_ByField_truthy _ _ _ Hv).
  destruct (value_eqb (field "email" d) v); [discriminate | exact IH].
Qed.

Lemma countEmail_some v docs d :
  truthy v = true ->
  findFirst (ByField "email" v) docs = Some d -> (1 <= countEmail v docs)%nat.
Proof.
  intros Hv Hfind.
  destruct (findFirst_Some _ _ _ Hfind) as (b & a & -> & Hm & _).
  rewrite (matches_ByField_truthy _ _ _ Hv) in Hm.
  rewrite countEmail_app. unfold countEmail at 2. simpl. rewrite Hm. simpl. lia.
Qed.

Section Credentials.

Variable hash : string -> Z -> string -> string.
Variable compare : string -> string -> bool.

Lemma register_conflict db body salt fresh d :
  truthy (field "name" body) = true ->
  truthy (field "email" body) = true ->
  truthy (field "password" body) = true ->
  findFirst (ByField "email" (field "email" body)) (adminDocs db) = Some d ->
  register hash body salt fresh db =
    (mkResponse 400 (Obj [message "Email already exists"]), db, [(OpFindOne, admin)]).
Proof.
  intros Hn He Hp Hfind. unfold register. rewrite Hn, He, Hp. simpl. run.
  now rewrite Hfind.
Qed.

Lemma register_new db body salt fresh pw :
  truthy (field "name" body) = true ->
  truthy (field "email" body) = true ->
  field "password" body = VStr pw -> pw <> "" ->
  findFirst (ByField "email" (field "email" body)) (adminDocs db) = None ->
  hasId fresh (adminDocs db) = false ->
  register hash body salt fresh db =
    (mkResponse 201 (Obj [message "Admin registered successfully"]),
     mkDatabase (adminDocs db ++ [adminRecord hash body pw salt fresh])
                (productDocs db) (orderDocs db) (logoDocs db),
     [(OpFindOne, admin); (OpInsertOne, admin)]).
Proof.
  intros Hn He Hp Hpw Hfind Hfresh. unfold register.
  rewrite Hn, He, Hp. rewrite (proj2 (truthy_VStr pw) Hpw). simpl. run.
  rewrite Hfind. unfold bcryptHash. run.
  unfold hasId in Hfresh. now rewrite Hfresh.
Qed.

(** What a 201 from [register] tells about the request and the store. *)
Lemma register_201 db body salt fresh :
  status (responseOf (register hash body salt fresh db)) = 201 ->
  exists pw,
    truthy (field "name" body) = true
    /\ truthy (field "email" body) = true
    /\ field "password" body = VStr pw /\ pw <> ""
    /\ findFirst (ByField "email" (field "email" body)) (adminDocs db) = None
    /\ hasId fresh (adminDocs db) = false.
Proof.
  unfold register.
  destruct (truthy (field "name" body)) eqn:Hn; [|discriminate].
  destruct (truthy (field "email" body)) eqn:He; [|discriminate].
  destruct (truthy (field "password" body)) eqn:Hp; [|discriminate].
  simpl. run.
  destruct (findFirst _ (adminDocs db)) eqn:Hfind; [discriminate|].
  unfold bcryptHash.
  destruct (field "password" body) as [| |b|n|pw|i|t] eqn:Epw; try discriminate.
  run. destruct (existsb _ (adminDocs db)) eqn:Hfresh; [discriminate|].
  intros _. exists pw. repeat split; auto. now apply truthy_VStr.
Qed.

Lemma login_found db body user p h :
  truthy (field "email" body) = true ->
  field "password" body = VStr p -> p <> "" ->
  findFirst (ByField "email" (field "email" body)) (adminDocs db) = Some user ->
  field "password" user = VStr h ->
  login compare body db =
    (if compare p h then
       mkResponse 200 (Obj [message "Login successful";
                            ("id", JValue (field "_id" user));
                            ("email", JValue (field "email" user));
                            ("name", JValue (field "name" user))])
     else mkResponse 401 (Obj [message "Invalid email or password"]),
     db, [(OpFindOne, admin)]).
Proof.
  intros He Hp Hpw Hfind Hh. unfold login.
  rewrite He, Hp, (proj2 (truthy_VStr p) Hpw). simpl. run.
  rewrite Hfind. unfold bcryptCompare. rewrite Hh. run.
  now destruct (compare p h).
Qed.

(** C3 (amended). Two registrations with the same email, one after the
    other, every required field given and the password of the first a
    string, in a store where that email is registered at most once and
    the first insert gets an unused identifier: the first is answered 201
    or "Email already exists", the second is answered 400 "Email already
    exists" and writes nothing, and the admin collection then holds
    exactly one record with that email. *)
Theorem register_twice_conflicts db body1 body2 salt1 salt2 fresh1 fresh2 pw1 :
  field "email" body2 = field "email" body1 ->
  truthy (field "email" body1) = true ->
  truthy (field "name" body1) = true -> truthy (field "name" body2) = true ->
  field "password" body1 = VStr pw1 -> pw1 <> "" ->
  truthy (field "password" body2) = true ->
  (countEmail (field "email" body1) (adminDocs db) <= 1)%nat ->
  hasId fresh1 (adminDocs db) = false ->
  let first := register hash body1 salt1 fresh1 db in
  let second := register hash body2 salt2 fresh2 (databaseOf first) in
  (status (responseOf first) = 201
   \/ responseOf first = mkResponse 400 (Obj [message "Email already exists"]))
  /\ responseOf second = mkResponse 400 (Obj [message "Email already exists"])
  /\ databaseOf second = databaseOf first
  /\ countEmail (field "email" body1) (adminDocs (databaseOf second)) = 1%nat.
Proof.
  intros He2 Ht Hn1 Hn2 Hp1 Hpw1 Hp2 Hcount Hfresh first second.
  assert (Ht2 : truthy (field "email" body2) = true) by now rewrite He2.
  assert (Hp1' : truthy (field "password" body1) = true)
    by (rewrite Hp1; now apply truthy_VStr).
  destruct (findFirst (ByField "email" (field "email" body1)) (adminDocs db))
    as [d|] eqn:Hfind.
  - assert (E1 : first = (mkResponse 400 (Obj [message "Email already exists"]), db,
                          [(OpFindOne, admin)])).
    { subst first. now apply (register_conflict db body1 salt1 fresh1 d). }
    subst second. rewrite E1. unfold databaseOf, responseOf. simpl.
    rewrite (register_conflict db body2 salt2 fresh2 d); rewrite ?He2; auto. simpl.
    repeat split; auto.
    pose proof (countEmail_some _ _ _ Ht Hfind). lia.
  - assert (E1 : first =
      (mkResponse 201 (Obj [message "Admin registered successfully"]),
       mkDatabase (adminDocs db ++ [adminRecord hash body1 pw1 salt1 fresh1])
                  (productDocs db) (orderDocs db) (logoDocs db),
       [(OpFindOne, admin); (OpInsertOne, admin)])).
    { subst first. now apply register_new. }
    subst second. rewrite E1. unfold databaseOf, responseOf. simpl.
    rewrite (register_conflict _ body2 salt2 fresh2
               (adminRecord hash body1 pw1 salt1 fresh1)); auto.
    + simpl. repeat split; auto.
      rewrite countEmail_app, (countEmail_none _ _ Ht Hfind).
      unfold countEmail, adminRecord. simpl. now rewrite value_eqb_refl.
    + simpl adminDocs. rewrite He2, findFirst_app, Hfind. cbn [findFirst].
      rewrite (matches_ByField_truthy _ _ _ Ht). unfold adminRecord. simpl.
      now rewrite value_eqb_refl.
Qed.

(** What is taken of [bcrypt]: [compare] accepts a password against a
    hash made from it. Which other passwords it turns down is not
    assumed: it reads the first 72 bytes of a password only. *)
Hypothesis compare_accepts :
  forall pw rounds salt, compare pw (hash pw rounds salt) = true.

(** C4 (amended). After a registration answered 201, the registered
    password is a string, and a login with the same email and that
    password is answered 200 with exactly the identifier the insert
    produced, the email and the name (and no hash); a login with the same
    email and a non-empty string password that [bcrypt.compare] turns down
    against the stored hash is answered 401 "Invalid email or password". *)
Theorem login_after_register db body salt fresh :
  status (responseOf (register hash body salt fresh db)) = 201 ->
  let db' := databaseOf (register hash body salt fresh db) in
  exists pw,
    field "password" body = VStr pw
    /\ (forall attempt,
          field "email" attempt = field "email" body ->
          field "password" attempt = VStr pw ->
          login compare attempt db' =
            (mkResponse 200 (Obj [message "Login successful";
                                  ("id", JValue (VId fresh));
                                  ("email", JValue (field "email" body));
                                  ("name", JValue (field "name" body))]),
             db', [(OpFindOne, admin)]))
    /\ (forall attempt pw',
          field "email" attempt = field "email" body ->
          field "password" attempt = VStr pw' ->
          pw' <> "" ->
          compare pw' (hash pw 10 salt) = false ->
          login compare attempt db' =
            (mkResponse 401 (Obj [message "Invalid email or password"]),
             db', [(OpFindOne, admin)])).
Proof.
  intros H201 db'.
  destruct (register_201 _ _ _ _ H201) as (pw & Hn & He & Hp & Hpw & Hfind & Hfresh).
  subst db'. rewrite (register_new db body salt fresh pw) by assumption.
  unfold databaseOf. simpl.
  assert (Hfind' :
    findFirst (ByField "email" (field "email" body))
      (adminDocs db ++ [adminRecord hash body pw salt fresh])
    = Some (adminRecord hash body pw salt fresh)).
  { rewrite findFirst_app, Hfind. cbn [findFirst].
    rewrite (matches_ByField_truthy _ _ _ He). unfold adminRecord. simpl.
    now rewrite value_eqb_refl. }
  exists pw. split; [assumption|]. split.
  - intros attempt Ea Epa.
    rewrite (login_found _ attempt (adminRecord hash body pw salt fresh)
               pw (hash pw 10 salt));
      rewrite ?Ea; try assumption; try reflexivity.
    now rewrite compare_accepts.
  - intros attempt pw' Ea Epa Hne Hno.
    rewrite (login_found _ attempt (adminRecord hash body pw salt fresh)
               pw' (hash pw 10 salt));
      rewrite ?Ea; try assumption; try reflexivity.
    now rewrite Hno.
Qed.

End Credentials.

(** ** Emails stay unique along a sequential run *)

Lemma register_cases hash db body salt fresh :
  databaseOf (register hash body salt fresh db) = db
  \/ exists pw,
       truthy (field "email" body) = true
       /\ findFirst (ByField "email" (field "email" body)) (adminDocs db) = None
       /\ databaseOf (register hash body salt fresh db) =
            mkDatabase (adminDocs db ++ [adminRecord hash body pw salt fresh])
                       (productDocs db) (orderDocs db) (logoDocs db).
Proof.
  unfold register.
  destruct (truthy (field "name" body)) eqn:Hn; [|now left].
  destruct (truthy (field "email" body)) eqn:He; [|now left].
  destruct (truthy (field "password" body)) eqn:Hp; [|now left].
  simpl. run.
  destruct (findFirst _ (adminDocs db)) eqn:Hfind; [now left|].
  unfold bcryptHash.
  destruct (field "password" body) as [| |b|n|pw|i|t] eqn:Epw; try (now left).
  run. destruct (existsb _ (adminDocs db)) eqn:Hfresh; [now left|].
  right. exists pw. repeat split; auto.
Qed.

Lemma route_sameAdmins hash compare r db :
  (forall body salt fresh, r <> PostRegister body salt fresh) ->
  sameAdmins db (databaseOf (route hash compare r db)).
Proof.
  intros Hr. destruct r; try (now elim (Hr body0 salt fresh)); simpl; unfold_routes;
    try guarded; try apply sameAdmins_refl;
    apply (stable_tryCatch sameAdmins); stab sameAdmins_trans.
Qed.

Lemma route_uniqueEmails hash compare r db :
  uniqueEmails db -> uniqueEmails (databaseOf (route hash compare r db)).
Proof.
  intros Hu.
  assert (Hother : (forall body salt fresh, r <> PostRegister body salt fresh) ->
                   uniqueEmails (databaseOf (route hash compare r db))).
  { intros Hr email. rewrite (route_sameAdmins hash compare r db Hr). apply Hu. }
  destruct r; try (apply Hother; discriminate). simpl.
  destruct (register_cases hash db body0 salt fresh) as [->|(pw & He & Hfind & ->)];
    [assumption|].
  intros email. simpl. rewrite countEmail_app.
  unfold countEmail at 2, adminRecord. simpl.
  destruct (value_eqb (field "email" body0) (VStr email)) eqn:E; simpl.
  - destruct (field "email" body0) as [| |b|n|e|i|t] eqn:Ev; try discriminate.
    simpl in E. apply String.eqb_eq in E. subst e.
    rewrite (countEmail_none _ _ He Hfind). lia.
  - specialize (Hu email). lia.
Qed.

(** Every request keeps emails unique, so a sequential run that starts
    with no admin never registers an email twice. *)
Lemma serveAll_uniqueEmails hash compare rs db :
  uniqueEmails db -> uniqueEmails (serveAll hash compare rs db).
Proof.
  revert db. induction rs as [|r rest IH]; intros db Hu; simpl; [assumption|].
  pose proof (route_uniqueEmails hash compare r db Hu) as H.
  destruct (route hash compare r db) as [[res db1] log]. now apply IH.
Qed.

Lemma uniqueEmails_from_empty hash compare rs ps os ls :
  uniqueEmails (serveAll hash compare rs (mkDatabase [] ps os ls)).
Proof. apply serveAll_uniqueEmails. intros email. apply Nat.le_0_l. Qed.

(** ** Concrete runs

    Each statement above that has premises, applied to the sample data. *)

Lemma completeOrder_getOrder_idempotent_run :
  ObjectId.new "507f1f77bcf86cd799439011" = Some (oid "507f1f77bcf86cd799439011")
  /\ findFirst (ById (oid "507f1f77bcf86cd799439011")) (orderDocs sampleDb)
     = Some sampleOrder
  /\ (let once := completeOrder "507f1f77bcf86cd799439011" sampleDb in
      let twice := completeOrder "507f1f77bcf86cd799439011" (databaseOf once) in
      responseOf once
      = mkResponse 200 (Obj [message "Order status updated to complete"])
      /\ responseOf (getOrder "507f1f77bcf86cd799439011" (databaseOf once))
         = mkResponse 200 (Obj [("id", JValue (VId (oid "507f1f77bcf86cd799439011")));
                                ("status", JValue (VStr "complete"))])
      /\ responseOf twice = responseOf once
      /\ databaseOf twice = databaseOf once).
Proof.
  split; [reflexivity|]. split; [reflexivity|].
  apply (completeOrder_getOrder_idempotent sampleDb "507f1f77bcf86cd799439011"
           (oid "507f1f77bcf86cd799439011") sampleOrder); reflexivity.
Defined.

Lemma register_twice_conflicts_run :
  let first :=
    register plainHash sampleRegistration "salt-1" (oid "aaaaaaaaaaaaaaaaaaaaaaaa")
      sampleDb in
  let second :=
    register plainHash
      [("name", VStr "Bob"); ("email", VStr "ann@jersey.shop"); ("password", VStr "other")]
      "salt-2" (oid "bbbbbbbbbbbbbbbbbbbbbbbb") (databaseOf first) in
  (status (responseOf first) = 201
   \/ responseOf first = mkResponse 400 (Obj [message "Email already exists"]))
  /\ responseOf second = mkResponse 400 (Obj [message "Email already exists"])
  /\ databaseOf second = databaseOf first
  /\ countEmail (VStr "ann@jersey.shop") (adminDocs (databaseOf second)) = 1%nat.
Proof.
  apply (register_twice_conflicts plainHash sampleDb sampleRegistration
           [("name", VStr "Bob"); ("email", VStr "ann@jersey.shop");
            ("password", VStr "other")]
           "salt-1" "salt-2" (oid "aaaaaaaaaaaaaaaaaaaaaaaa")
           (oid "bbbbbbbbbbbbbbbbbbbbbbbb") "s3cret");
    try reflexivity; try discriminate.
  vm_compute. repeat constructor.
Defined.

(** C3 as first stated fails for a password that is not a string: with
    name, email and the password 12345 all given, [bcrypt.hash] throws,
    both registrations are answered 500 "Registration failed", and no
    admin record carries the email afterwards. *)
Lemma register_twice_numeric_password_is_500 :
  let body := [("name", VStr "Ann"); ("email", VStr "ann@jersey.shop");
               ("password", VNum (num 12345))] in
  let first := register plainHash body "salt-1" (oid "aaaaaaaaaaaaaaaaaaaaaaaa")
                 sampleDb in
  let second := register plainHash body "salt-2" (oid "bbbbbbbbbbbbbbbbbbbbbbbb")
                  (databaseOf first) in
  truthy (field "name" body) && truthy (field "email" body)
  && truthy (field "password" body) = true
  /\ first =
       (mkResponse 500 (Obj [message "Registration failed";
                             ("error", JError IllegalArguments)]),
        sampleDb, [(OpFindOne, admin)])
  /\ second =
       (mkResponse 500 (Obj [message "Registration failed";
                             ("error", JError IllegalArguments)]),
        sampleDb, [(OpFindOne, admin)])
  /\ responseOf second <> mkResponse 400 (Obj [message "Email already exists"])
  /\ countEmail (VStr "ann@jersey.shop") (adminDocs (databaseOf second)) = 0%nat.
Proof. repeat split. discriminate. Qed.

Lemma login_after_register_run :
  status (responseOf (register plainHash sampleRegistration "salt-1"
                        (oid "aaaaaaaaaaaaaaaaaaaaaaaa") sampleDb)) = 201
  /\ (let db' := databaseOf (register plainHash sampleRegistration "salt-1"
                               (oid "aaaaaaaaaaaaaaaaaaaaaaaa") sampleDb) in
      exists pw,
        field "password" sampleRegistration = VStr pw
        /\ (forall attempt,
              field "email" attempt = field "email" sampleRegistration ->
              field "password" attempt = VStr pw ->
              login plainCompare attempt db' =
                (mkResponse 200
                   (Obj [message "Login successful";
                         ("id", JValue (VId (oid "aaaaaaaaaaaaaaaaaaaaaaaa")));
                         ("email", JValue (field "email" sampleRegistration));
                         ("name", JValue (field "name" sampleRegistration))]),
                 db', [(OpFindOne, admin)]))
        /\ (forall attempt pw',
              field "email" attempt = field "email" sampleRegistration ->
              field "password" attempt = VStr pw' ->
              pw' <> "" ->
              plainCompare pw' (plainHash pw 10 "salt-1") = false ->
              login plainCompare attempt db' =
                (mkResponse 401 (Obj [message "Invalid email or password"]),
                 db', [(OpFindOne, admin)]))).
Proof.
  split; [reflexivity|].
  apply (login_after_register plainHash plainCompare).
  - intros pw rounds salt. apply String.eqb_refl.
  - reflexivity.
Defined.

(** C4 as first stated fails for the empty password: after a successful
    registration, a login with the registered email and the password [""],
    which is not the registered one, is answered 400 "Email and password
    are required", not 401. *)
Lemma login_empty_password_is_400 :
  let db' := databaseOf (register plainHash sampleRegistration "salt-1"
                           (oid "aaaaaaaaaaaaaaaaaaaaaaaa") sampleDb) in
  let attempt := [("email", VStr "ann@jersey.shop"); ("password", VStr "")] in
  status (responseOf (register plainHash sampleRegistration "salt-1"
                        (oid "aaaaaaaaaaaaaaaaaaaaaaaa") sampleDb)) = 201
  /\ field "password" sampleRegistration = VStr "s3cret"
  /\ field "password" attempt <> VStr "s3cret"
  /\ login plainCompare attempt db' =
       (mkResponse 400 (Obj [message "Email and password are required"]), db', [])
  /\ status (responseOf (login plainCompare attempt db')) <> 401.
Proof.
  repeat split; discriminate.
Qed.

Lemma getOrder_validates_then_projects_run :
  getOrder "not-an-id" sampleDb =
    (mkResponse 400 (Obj [message "Invalid order ID format"]), sampleDb, [])
  /\ getOrder "507F1F77BCF86CD799439011" sampleDb =
       (mkResponse 200 (Obj [("id", JValue (VId (oid "507f1f77bcf86cd799439011")));
                             ("status", JValue (VStr "pending"))]),
        sampleDb, [(OpFindOne, orders)]).
Proof.
  split.
  - apply (proj1 (getOrder_validates_then_projects sampleDb "not-an-id")).
    reflexivity.
  - apply (proj2 (getOrder_validates_then_projects sampleDb "507F1F77BCF86CD799439011")
             (oid "507f1f77bcf86cd799439011") sampleOrder); reflexivity.
Defined.

Lemma deleteProduct_removes_exactly_one_run :
  deleteProduct "000000000000000000000000" sampleDb =
    (mkResponse 404 (Obj [message "Product not found"]), sampleDb,
     [(OpDeleteOne, products)])
  /\ exists before after,
       productDocs sampleDb = before ++ sampleProduct :: after
       /\ hasId (oid "65a1b2c3d4e5f60718293a4b") before = false
       /\ deleteProduct "65a1b2c3d4e5f60718293a4b" sampleDb =
            (mkResponse 200 (Obj [message "Product deleted successfully"]),
             mkDatabase (adminDocs sampleDb) (before ++ after)
                        (orderDocs sampleDb) (logoDocs sampleDb),
             [(OpDeleteOne, products)]).
Proof.
  split.
  - apply (proj1 (deleteProduct_removes_exactly_one sampleDb "000000000000000000000000"
                    (oid "000000000000000000000000") eq_refl)).
    reflexivity.
  - apply (proj2 (deleteProduct_removes_exactly_one sampleDb "65a1b2c3d4e5f60718293a4b"
                    (oid "65a1b2c3d4e5f60718293a4b") eq_refl) sampleProduct).
    reflexivity.
Defined.



Lemma createProduct_abc_stores_NaN_run :
  createProduct sampleProductBody (Some "https://res.cloudinary.com/demo/products/away.png")
    (oid "cccccccccccccccccccccccc") sampleDb =
    (mkResponse 201
       (Obj [message "Product added successfully";
             ("product",
              JObject [("name", VStr "Away jersey"); ("category", VStr "jerseys");
                       ("price", VNum NaN); ("size", VStr "L");
                       ("image", VStr "https://res.cloudinary.com/demo/products/away.png");
                       ("description", VStr "");
                       ("_id", VId (oid "cccccccccccccccccccccccc"))])]),
     mkDatabase []
       [sampleProduct;
        [("_id", VId (oid "cccccccccccccccccccccccc"));
         ("name", VStr "Away jersey"); ("category", VStr "jerseys");
         ("price", VNum NaN); ("size", VStr "L");
         ("image", VStr "https://res.cloudinary.com/demo/products/away.png");
         ("description", VStr "")]]
       [sampleOrder] [sampleLogo],
     [(OpInsertOne, products)]).
Proof.
  apply (createProduct_abc_stores_NaN sampleDb sampleProductBody
           "https://res.cloudinary.com/demo/products/away.png"
           (oid "cccccccccccccccccccccccc")); reflexivity.
Defined.

Lemma updateProduct_without_image_stores_null_run :
  let body := [("name", VStr "Home jersey"); ("category", VStr "jerseys");
               ("price", VNum (num 50)); ("size", VStr "M")] in
  let r := updateProduct "65a1b2c3d4e5f60718293a4b" body sampleDb in
  field "image" sampleProduct = VStr "https://res.cloudinary.com/demo/products/home.png"
  /\ status (responseOf r) = 200
  /\ exists p',
       findFirst (ById (oid "65a1b2c3d4e5f60718293a4b")) (productDocs (databaseOf r))
       = Some p'
       /\ field "image" p' = VNull
       /\ (field "description" body = VUndefined -> field "description" p' = VStr "").
Proof.
  split; [reflexivity|].
  apply (updateProduct_without_image_stores_null sampleDb "65a1b2c3d4e5f60718293a4b"
           (oid "65a1b2c3d4e5f60718293a4b") sampleProduct); reflexivity.
Defined.


(** * Further properties of the routes *)

(** ** Identifiers and their hex form *)

Lemma byte_hex_round_trip (x : byte) :
  hexDigit (hexChar (Byte.to_N x / 16)) = Some (Byte.to_N x / 16)%N
  /\ hexDigit (hexChar (Byte.to_N x mod 16)) = Some (Byte.to_N x mod 16)%N
  /\ Byte.of_N (16 * (Byte.to_N x / 16) + Byte.to_N x mod 16) = Some x.
Proof. destruct x; vm_compute; repeat split. Qed.

Lemma fromHex_toHexString o : ObjectId.fromHex (ObjectId.toHexString o) = Some o.
Proof.
  induction o as [|x r IH]; [reflexivity|].
  destruct (byte_hex_round_trip x) as (Hh & Hl & Hb).
  cbn [ObjectId.toHexString ObjectId.fromHex]. cbv zeta.
  now rewrite Hh, Hl, IH, Hb.
Qed.

Lemma length_toHexString o :
  String.length (ObjectId.toHexString o) = (2 * List.length o)%nat.
Proof. induction o as [|x r IH]; simpl; [reflexivity | rewrite IH; lia]. Qed.

Lemma new_toHexString o :
  List.length o = 12%nat -> ObjectId.new (ObjectId.toHexString o) = Some o.
Proof.
  intros H. unfold ObjectId.new. rewrite length_toHexString, H. simpl.
  apply fromHex_toHexString.
Qed.

Lemma toHexString_not_empty o :
  List.length o = 12%nat -> truthy (VStr (ObjectId.toHexString o)) = true.
Proof. destruct o; [discriminate | reflexivity]. Qed.

Lemma database_eta db :
  mkDatabase (adminDocs db) (productDocs db) (orderDocs db) (logoDocs db) = db.
Proof. now destruct db. Qed.

Lemma deleteFirst_app_last q docs d :
  findFirst q docs = None -> matches q d = true ->
  deleteFirst q (docs ++ [d]) = docs.
Proof.
  intros Hnone Hm. induction docs as [|x r IH]; simpl in *.
  - now rewrite Hm.
  - destruct (matches q x); [discriminate | now rewrite IH].
Qed.

(** ** Creating a product, listing, deleting it again *)

Lemma createProduct_created db body path fresh :
  productFieldsGiven body = true ->
  hasId fresh (productDocs db) = false ->
  createProduct body (Some path) fresh db =
    (mkResponse 201
       (Obj [message "Product added successfully";
             ("product",
              JObject (tl (productRecord body path fresh) ++ [("_id", VId fresh)]))]),
     mkDatabase (adminDocs db) (productDocs db ++ [productRecord body path fresh])
                (orderDocs db) (logoDocs db),
     [(OpInsertOne, products)]).
Proof.
  unfold productFieldsGiven. intros Hg Hfresh.
  apply andb_prop in Hg. destruct Hg as [Hg Hs].
  apply andb_prop in Hg. destruct Hg as [Hg Hp].
  apply andb_prop in Hg. destruct Hg as [Hn Hc].
  unfold createProduct. rewrite Hn, Hc, Hp, Hs. simpl. run.
  unfold hasId in Hfresh. now rewrite Hfresh.
Qed.

(** X1. A product created with an unused twelve-byte identifier shows up
    last in the listing, with its price parsed, and deleting it by the hex
    form of that identifier gives back the database as it was before. *)
Theorem createProduct_list_delete_round_trip db body path fresh :
  productFieldsGiven body = true ->
  hasId fresh (productDocs db) = false ->
  List.length fresh = 12%nat ->
  let created := databaseOf (createProduct body (Some path) fresh db) in
  status (responseOf (createProduct body (Some path) fresh db)) = 201
  /\ responseOf (listProducts created) =
       mkResponse 200 (Arr (productDocs db ++ [productRecord body path fresh]))
  /\ deleteProduct (ObjectId.toHexString fresh) created =
       (mkResponse 200 (Obj [message "Product deleted successfully"]), db,
        [(OpDeleteOne, products)]).
Proof.
  intros Hg Hfresh Hlen created. subst created.
  rewrite (createProduct_created _ _ _ _ Hg Hfresh).
  unfold responseOf, databaseOf. simpl. repeat split.
  unfold deleteProduct. run. rewrite (new_toHexString _ Hlen). simpl.
  apply hasId_findFirst in Hfresh.
  rewrite findFirst_app, Hfresh. simpl. rewrite ObjectId_eqb_refl. simpl.
  rewrite deleteFirst_app_last; [now rewrite database_eta | assumption |].
  simpl. apply ObjectId_eqb_refl.
Qed.

(** ** Logging in with an identifier *)

(** X2. After a registration answered 201 with a twelve-byte identifier,
    [loginWithId] with the hex form of that identifier, and nothing else,
    is answered 200 with the identifier, the email and the name that were
    registered; it reads the admin collection once and writes nothing. *)
Theorem loginWithId_after_register hash db body salt fresh attempt generated :
  status (responseOf (register hash body salt fresh db)) = 201 ->
  List.length fresh = 12%nat ->
  field "id" attempt = VStr (ObjectId.toHexString fresh) ->
  let db' := databaseOf (register hash body salt fresh db) in
  loginWithId attempt generated db' =
    (mkResponse 200 (Obj [message "Login successful";
                          ("id", JValue (VId fresh));
                          ("email", JValue (field "email" body));
                          ("name", JValue (field "name" body))]),
     db', [(OpFindOne, admin)]).
Proof.
  intros H201 Hlen Hid db'.
  destruct (register_201 _ _ _ _ _ H201) as (pw & Hn & He & Hp & Hpw & Hfind & Hfresh).
  subst db'. rewrite (register_new hash db body salt fresh pw) by assumption.
  unfold databaseOf. simpl. unfold loginWithId.
  rewrite Hid, (toHexString_not_empty _ Hlen). simpl. unfold newObjectIdOf. run.
  rewrite (new_toHexString _ Hlen). simpl.
  apply hasId_findFirst in Hfresh. rewrite findFirst_app, Hfresh. simpl.
  now rewrite ObjectId_eqb_refl.
Qed.

(** ** Identifiers that are not validated *)

(** X3. Three routes build an [ObjectId] from the request without
    checking it first. With an id that is not well formed, [deleteProduct],
    [updateProduct] (its required fields given) and [loginWithId] are
    answered 500, not 400 or 404; no store call is made and the database
    is as before. *)
Theorem unvalidated_id_answers_500 db id :
  ObjectId.isValid id = false ->
  deleteProduct id db =
    (mkResponse 500 (Obj [message "Error deleting product";
                          ("error", JErrorMessage BSONError)]), db, [])
  /\ (forall body,
        productFieldsGiven body = true ->
        updateProduct id body db =
          (mkResponse 500 (Obj [message "Error updating product";
                                ("error", JErrorMessage BSONError)]), db, []))
  /\ (forall body generated,
        field "id" body = VStr id -> id <> "" ->
        loginWithId body generated db =
          (mkResponse 500 (Obj [message "Error logging in";
                                ("error", JErrorMessage BSONError)]), db, [])).
Proof.
  unfold ObjectId.isValid. intros Hid.
  destruct (ObjectId.new id) eqn:Hnew; [discriminate|].
  repeat split.
  - unfold deleteProduct. run. now rewrite Hnew.
  - intros body Hg. unfold productFieldsGiven in Hg.
    apply andb_prop in Hg. destruct Hg as [Hg Hs].
    apply andb_prop in Hg. destruct Hg as [Hg Hp].
    apply andb_prop in Hg. destruct Hg as [Hn Hc].
    unfold updateProduct. rewrite Hn, Hc, Hp, Hs. simpl. run. now rewrite Hnew.
  - intros body generated Hb Hne. unfold loginWithId.
    rewrite Hb, (proj2 (truthy_VStr id) Hne). simpl. unfold newObjectIdOf. run.
    now rewrite Hnew.
Qed.

(** ** Requests that are turned away before the store *)

(** X4. A product body that passes the field check but comes without an
    image file is answered 500 "Error adding product": reading the path
    of the missing file throws inside the [try]. Nothing is stored and no
    store call is made. *)
Theorem createProduct_without_image_is_500 db body fresh :
  productFieldsGiven body = true ->
  createProduct body None fresh db =
    (mkResponse 500 (Obj [message "Error adding product";
                          ("error", JErrorMessage TypeError)]), db, []).
Proof.
  unfold productFieldsGiven. intros Hg.
  apply andb_prop in Hg. destruct Hg as [Hg Hs].
  apply andb_prop in Hg. destruct Hg as [Hg Hp].
  apply andb_prop in Hg. destruct Hg as [Hn Hc].
  unfold createProduct. rewrite Hn, Hc, Hp, Hs. reflexivity.
Qed.

(** X5. When one of name, category, price and size is missing or falsy
    (the empty string, and also the number 0 or [NaN] as a price),
    [createProduct] and [updateProduct] are answered 400 "Please provide
    all required fields" whatever else the request holds; no store call is
    made and the database is as before. *)
Theorem product_fields_are_required db body :
  productFieldsGiven body = false ->
  (forall file fresh,
     createProduct body file fresh db =
       (mkResponse 400 (Obj [message "Please provide all required fields"]), db, []))
  /\ (forall id,
        updateProduct id body db =
          (mkResponse 400 (Obj [message "Please provide all required fields"]), db, [])).
Proof.
  unfold productFieldsGiven. intros Hg.
  assert (H : negb (truthy (field "name" body)) || negb (truthy (field "category" body))
              || negb (truthy (field "price" body)) || negb (truthy (field "size" body))
              = true).
  { destruct (truthy (field "name" body)), (truthy (field "category" body)),
      (truthy (field "price" body)), (truthy (field "size" body));
      simpl in *; congruence. }
  split; intros; [unfold createProduct | unfold updateProduct]; now rewrite H.
Qed.

(** X6. [register] without a name, an email or a password, [login]
    without an email or a password, and [loginWithId] without an id are
    answered 400 before any store call; the database is as before. *)
Theorem credentials_are_required hash compare db body :
  (truthy (field "name" body) && truthy (field "email" body)
   && truthy (field "password" body) = false ->
   forall salt fresh,
     register hash body salt fresh db =
       (mkResponse 400 (Obj [message "Please provide all fields"]), db, []))
  /\ (truthy (field "email" body) && truthy (field "password" body) = false ->
      login compare body db =
        (mkResponse 400 (Obj [message "Email and password are required"]), db, []))
  /\ (truthy (field "id" body) = false ->
      forall generated,
        loginWithId body generated db =
          (mkResponse 400 (Obj [message "ID is required"]), db, [])).
Proof.
  repeat split.
  - intros H salt fresh. unfold register.
    destruct (truthy (field "name" body)), (truthy (field "email" body)),
      (truthy (field "password" body)); simpl in *; try discriminate; reflexivity.
  - intros H. unfold login.
    destruct (truthy (field "email" body)), (truthy (field "password" body));
      simpl in *; try discriminate; reflexivity.
  - intros H generated. unfold loginWithId. now rewrite H.
Qed.

(** ** Failed logins *)

(** X7. A login with an email nobody registered and a login with a
    registered email and a password that [bcrypt.compare] turns down get
    the same answer, 401 "Invalid email or password", after the same
    single read: the response does not tell which of the two it was. *)
Theorem login_failures_look_alike compare db body p :
  truthy (field "email" body) = true ->
  field "password" body = VStr p -> p <> "" ->
  (findFirst (ByField "email" (field "email" body)) (adminDocs db) = None ->
   login compare body db =
     (mkResponse 401 (Obj [message "Invalid email or password"]), db,
      [(OpFindOne, admin)]))
  /\ (forall user h,
        findFirst (ByField "email" (field "email" body)) (adminDocs db) = Some user ->
        field "password" user = VStr h ->
        compare p h = false ->
        login compare body db =
          (mkResponse 401 (Obj [message "Invalid email or password"]), db,
           [(OpFindOne, admin)])).
Proof.
  intros He Hp Hpw. split.
  - intros Hnone. unfold login. rewrite He, Hp, (proj2 (truthy_VStr p) Hpw).
    simpl. run. now rewrite Hnone.
  - intros user h Hfind Hh Hc.
    rewrite (login_found compare db body user p h) by assumption.
    now rewrite Hc.
Qed.

(** ** Approving a logo, then reading it *)

Lemma approve_keeps_id o d :
  matches (ById o) d = true ->
  matches (ById o) (setFields [("approval", VBool true)] d) = true.
Proof.
  intros H. unfold setFields; simpl. apply matches_ById_setField; [discriminate | exact H].
Qed.

Lemma approveLogo_found db id o logo :
  ObjectId.new id = Some o ->
  findFirst (ById o) (logoDocs db) = Some logo ->
  approveLogo id db =
    (mkResponse 200 (Obj [message "Logo status updated to complete"]),
     withCollection logos
       (updateFirst (ById o) [("approval", VBool true)] (logoDocs db)) db,
     [(OpUpdateOne, logos)]).
Proof.
  intros Hid Hfind. unfold approveLogo, ObjectId.isValid.
  rewrite Hid. simpl. run. rewrite Hid. simpl. now rewrite Hfind.
Qed.

Lemma getLogo_found db id o logo :
  ObjectId.new id = Some o ->
  findFirst (ById o) (logoDocs db) = Some logo ->
  getLogo id db = (mkResponse 200 (Doc logo), db, [(OpFindOne, logos)]).
Proof.
  intros Hid Hfind. unfold getLogo, ObjectId.isValid.
  rewrite Hid. simpl. run. rewrite Hid. simpl. now rewrite Hfind.
Qed.

(** X8. For an id that matches a logo, [approveLogo] is answered 200; a
    following [getLogo] returns the whole logo document with [approval]
    equal to [true] and every other field as it was; a second
    [approveLogo] is answered the same and leaves the database as the
    first one left it. *)
Theorem approveLogo_getLogo_idempotent db id o logo :
  ObjectId.new id = Some o ->
  findFirst (ById o) (logoDocs db) = Some logo ->
  let once := approveLogo id db in
  let twice := approveLogo id (databaseOf once) in
  responseOf once = mkResponse 200 (Obj [message "Logo status updated to complete"])
  /\ (exists logo',
        responseOf (getLogo id (databaseOf once)) = mkResponse 200 (Doc logo')
        /\ field "approval" logo' = VBool true
        /\ forall k, k <> "approval" -> field k logo' = field k logo)
  /\ responseOf twice = responseOf once
  /\ databaseOf twice = databaseOf once.
Proof.
  intros Hid Hfind once twice.
  assert (Hfind' :
    findFirst (ById o) (logoDocs (databaseOf once)) =
      Some (setFields [("approval", VBool true)] logo)).
  { subst once. rewrite (approveLogo_found _ _ _ _ Hid Hfind).
    unfold databaseOf; simpl.
    rewrite findFirst_updateFirst by apply approve_keeps_id.
    now rewrite Hfind. }
  subst twice.
  rewrite (approveLogo_found _ _ _ _ Hid Hfind').
  rewrite (getLogo_found _ _ _ _ Hid Hfind').
  subst once. rewrite (approveLogo_found _ _ _ _ Hid Hfind).
  unfold responseOf, databaseOf; simpl.
  repeat split.
  - eexists. split; [reflexivity|]. unfold setFields; simpl. split.
    + apply field_setField_same.
    + intros k Hk. now apply field_setField_other.
  - rewrite updateFirst_idempotent; [reflexivity | apply approve_keeps_id |].
    intros d. unfold setFields; simpl. apply setField_idempotent.
Qed.

(** ** Identifiers that match nothing, identifiers that are malformed *)

(** X9. With a well-formed id that no document of the collection carries,
    [getOrder], [completeOrder], [getLogo], [approveLogo] and
    [updateProduct] (its required fields given) are answered 404 after a
    single store call, and the database is as before. *)
Theorem unmatched_id_answers_404 db id o :
  ObjectId.new id = Some o ->
  (findFirst (ById o) (orderDocs db) = None ->
   getOrder id db =
     (mkResponse 404 (Obj [message "Order not found"]), db, [(OpFindOne, orders)])
   /\ completeOrder id db =
        (mkResponse 404 (Obj [message "Order not found"]), db, [(OpUpdateOne, orders)]))
  /\ (findFirst (ById o) (logoDocs db) = None ->
      getLogo id db =
        (mkResponse 404 (Obj [message "Logo not found"]), db, [(OpFindOne, logos)])
      /\ approveLogo id db =
           (mkResponse 404 (Obj [message "Logo not found"]), db, [(OpUpdateOne, logos)]))
  /\ (findFirst (ById o) (productDocs db) = None ->
      forall body,
        productFieldsGiven body = true ->
        updateProduct id body db =
          (mkResponse 404 (Obj [message "Product not found"]), db,
           [(OpUpdateOne, products)])).
Proof.
  intros Hid. repeat split.
  - unfold getOrder, ObjectId.isValid. rewrite Hid. simpl. run.
    rewrite Hid. simpl. now rewrite H.
  - unfold completeOrder, ObjectId.isValid. rewrite Hid. simpl. run.
    rewrite Hid. simpl. now rewrite H.
  - unfold getLogo, ObjectId.isValid. rewrite Hid. simpl. run.
    rewrite Hid. simpl. now rewrite H.
  - unfold approveLogo, ObjectId.isValid. rewrite Hid. simpl. run.
    rewrite Hid. simpl. now rewrite H.
  - intros H body Hg. unfold productFieldsGiven in Hg.
    apply andb_prop in Hg. destruct Hg as [Hg Hs].
    apply andb_prop in Hg. destruct Hg as [Hg Hp].
    apply andb_prop in Hg. destruct Hg as [Hn Hc].
    unfold updateProduct. rewrite Hn, Hc, Hp, Hs. simpl. run.
    rewrite Hid. simpl. now rewrite H.
Qed.

(** X10. With an id that is not well formed, [completeOrder], [getLogo]
    and [approveLogo] are answered 400 with no store call made and the
    database as before. *)
Theorem malformed_id_answers_400 db id :
  ObjectId.isValid id = false ->
  completeOrder id db =
    (mkResponse 400 (Obj [message "Invalid order ID format"]), db, [])
  /\ getLogo id db =
       (mkResponse 400 (Obj [message "Invalid logo ID format"]), db, [])
  /\ approveLogo id db =
       (mkResponse 400 (Obj [message "Invalid logo ID format"]), db, []).
Proof.
  intros H. unfold completeOrder, getLogo, approveLogo. run. now rewrite H.
Qed.

(** ** What a request leaves alone *)

Lemma keepsCollection_refl c db : keepsCollection c db db.
Proof. reflexivity. Qed.

Lemma keepsCollection_trans c x y z :
  keepsCollection c x y -> keepsCollection c y z -> keepsCollection c x z.
Proof. unfold keepsCollection. congruence. Qed.

Lemma collection_withCollection_other c c' docs db :
  c' <> c -> collection c (withCollection c' docs db) = collection c db.
Proof. intros H. destruct c, c'; simpl; congruence. Qed.

Lemma keepsCollection_insertOne c c' doc fresh :
  c' <> c -> stable (keepsCollection c) (insertOne c' doc fresh).
Proof.
  intros H db log. unfold insertOne, bind, logged. simpl.
  destruct (existsb _ _); simpl; [reflexivity|].
  now apply collection_withCollection_other.
Qed.

Lemma keepsCollection_updateOne c c' q u :
  c' <> c -> stable (keepsCollection c) (updateOne c' q u).
Proof.
  intros H db log. unfold updateOne, bind, logged. simpl.
  destruct (findFirst _ _); simpl; [|reflexivity].
  now apply collection_withCollection_other.
Qed.

Lemma keepsCollection_deleteOne c c' q :
  c' <> c -> stable (keepsCollection c) (deleteOne c' q).
Proof.
  intros H db log. unfold deleteOne, bind, logged. simpl.
  destruct (findFirst _ _); simpl; [|reflexivity].
  now apply collection_withCollection_other.
Qed.

#[local] Hint Resolve keepsCollection_refl : stable.
#[local] Hint Extern 1 (stable (keepsCollection _) (insertOne _ _ _)) =>
  apply keepsCollection_insertOne; congruence : stable.
#[local] Hint Extern 1 (stable (keepsCollection _) (updateOne _ _ _)) =>
  apply keepsCollection_updateOne; congruence : stable.
#[local] Hint Extern 1 (stable (keepsCollection _) (deleteOne _ _)) =>
  apply keepsCollection_deleteOne; congruence : stable.

Lemma route_frame hash compare r db c :
  target r <> Some c ->
  keepsCollection c db (databaseOf (route hash compare r db)).
Proof.
  intros Ht. destruct r; simpl in Ht; simpl; unfold_routes;
    try guarded; try apply keepsCollection_refl;
    apply (stable_tryCatch (keepsCollection c));
    stab (keepsCollection_trans c).
Qed.

Lemma database_ext db db' :
  (forall c, collection c db' = collection c db) -> db' = db.
Proof.
  intros H. destruct db, db'.
  pose proof (H admin). pose proof (H products).
  pose proof (H orders). pose proof (H logos). simpl in *. congruence.
Qed.

(** X11. Every request writes at most one collection, the one its route
    names: [register] the admins, the three product routes the products,
    [completeOrder] the orders, [approveLogo] the logos. Every other
    collection is the same after the request as before it, whatever the
    request carries and however it is answered. *)
Theorem request_writes_only_its_collection hash compare r db c :
  target r <> Some c ->
  collection c (databaseOf (route hash compare r db)) = collection c db.
Proof. apply route_frame. Qed.

(** X12. The reads write nothing: after any GET, [login] or
    [loginWithId], whatever its parameters and its answer, the database
    is exactly as before. *)
Theorem reads_leave_the_database_unchanged hash compare r db :
  readOnly r = true -> databaseOf (route hash compare r db) = db.
Proof.
  intros Hr. apply database_ext. intros c. apply route_frame.
  destruct r; simpl in *; discriminate.
Qed.

(** ** Admin records are only ever added *)

Lemma route_admins_grow hash compare r db :
  exists added,
    adminDocs (databaseOf (route hash compare r db)) = adminDocs db ++ added.
Proof.
  assert (Hother : (forall body salt fresh, r <> PostRegister body salt fresh) ->
                   exists added,
                     adminDocs (databaseOf (route hash compare r db))
                     = adminDocs db ++ added).
  { intros Hr. exists []. rewrite (route_sameAdmins hash compare r db Hr).
    now rewrite app_nil_r. }
  destruct r; try (apply Hother; discriminate). simpl.
  destruct (register_cases hash db body0 salt fresh) as [->|(pw & _ & _ & ->)].
  - exists []. now rewrite app_nil_r.
  - eexists. reflexivity.
Qed.

(** X13. No sequence of requests updates or deletes an admin record: the
    admin collection after the run is the collection before it, in the
    same order, followed by the records registered during the run. *)
Theorem admins_are_append_only hash compare (rs : list request) (db : database) :
  exists added,
    adminDocs (serveAll hash compare rs db) = adminDocs db ++ added.
Proof.
  revert db. induction rs as [|r rest IH]; intros db; simpl.
  - exists []. now rewrite app_nil_r.
  - destruct (route_admins_grow hash compare r db) as (a1 & H1).
    destruct (route hash compare r db) as [[res db1] log].
    unfold databaseOf in H1. simpl in H1.
    destruct (IH db1) as (a2 & H2). exists (a1 ++ a2).
    now rewrite H2, H1, app_assoc.
Qed.

(** X14. Along any sequence of requests that starts in a database where
    no email is registered twice, no email is registered twice
    afterwards: [register] inserts only after it found no admin with the
    email. *)
Theorem emails_stay_unique hash compare (rs : list request) (db : database) :
  (forall email, (countEmail (VStr email) (adminDocs db) <= 1)%nat) ->
  forall email,
    (countEmail (VStr email) (adminDocs (serveAll hash compare rs db)) <= 1)%nat.
Proof. apply serveAll_uniqueEmails. Qed.

(** X15. After a registration answered 201, [listAdmins] returns the
    admins there were followed by the new record, and that record carries
    the password hash as stored: the hash is part of the response. *)
Theorem listAdmins_returns_the_hash hash db body salt fresh :
  status (responseOf (register hash body salt fresh db)) = 201 ->
  exists pw record,
    field "password" body = VStr pw
    /\ responseOf (listAdmins (databaseOf (register hash body salt fresh db)))
       = mkResponse 200 (Arr (adminDocs db ++ [record]))
    /\ field "_id" record = VId fresh
    /\ field "email" record = field "email" body
    /\ field "password" record = VStr (hash pw 10 salt).
Proof.
  intros H201.
  destruct (register_201 _ _ _ _ _ H201) as (pw & Hn & He & Hp & Hpw & Hfind & Hfresh).
  exists pw, (adminRecord hash body pw salt fresh).
  rewrite (register_new hash db body salt fresh pw) by assumption.
  repeat split. assumption.
Qed.

(** ** What an update of a product replaces and what it keeps *)

Lemma field_setFields_other k u d :
  ~ In k (map fst u) -> field k (setFields u d) = field k d.
Proof.
  unfold setFields. revert d. induction u as [|[k' v] r IH]; intros d Hk; simpl.
  - reflexivity.
  - rewrite IH by (intros H; apply Hk; now right).
    apply field_setField_other. intros E. apply Hk. now left.
Qed.

(** X16. For a product that exists, an update with the required fields
    given is answered 200 with the new values, and replaces that product
    where it stands: its name, category, size are the body's, its price is
    the body's price parsed as a number, its image the body's or [null],
    its description the body's or the empty string; every other field of
    it, the [_id] among them, and every other product are as before. *)
Theorem updateProduct_replaces_six_fields db id o p body :
  ObjectId.new id = Some o ->
  findFirst (ById o) (productDocs db) = Some p ->
  productFieldsGiven body = true ->
  exists before after p',
    productDocs db = before ++ p :: after
    /\ hasId o before = false
    /\ updateProduct id body db =
         (mkResponse 200 (Obj [message "Product updated successfully";
                               ("updatedProduct", JObject (productUpdate body))]),
          mkDatabase (adminDocs db) (before ++ p' :: after) (orderDocs db) (logoDocs db),
          [(OpUpdateOne, products)])
    /\ field "name" p' = field "name" body
    /\ field "category" p' = field "category" body
    /\ field "price" p' = VNum (parseFloat (field "price" body))
    /\ field "size" p' = field "size" body
    /\ field "image" p' = or_else (field "image" body) VNull
    /\ field "description" p' = or_else (field "description" body) (VStr "")
    /\ forall k,
         ~ In k ["name"; "category"; "price"; "size"; "image"; "description"] ->
         field k p' = field k p.
Proof.
  intros Hid Hfind Hg.
  destruct (findFirst_Some _ _ _ Hfind) as (b & a & Hsplit & _ & Hb & _ & Hupd).
  exists b, a, (setFields (productUpdate body) p).
  split; [assumption|]. split; [now apply hasId_findFirst|]. split.
  - unfold productFieldsGiven in Hg.
    apply andb_prop in Hg. destruct Hg as [Hg Hs].
    apply andb_prop in Hg. destruct Hg as [Hg Hp].
    apply andb_prop in Hg. destruct Hg as [Hn Hc].
    pose proof (Hupd (productUpdate body)) as Hu.
    set (p' := setFields (productUpdate body) p) in *.
    unfold productUpdate in Hu.
    unfold updateProduct. rewrite Hn, Hc, Hp, Hs. simpl. run.
    rewrite Hid. simpl. rewrite Hfind. simpl. now rewrite Hu.
  - unfold setFields, productUpdate; simpl.
    repeat split;
      try (repeat (rewrite field_setField_other by discriminate);
           apply field_setField_same).
    intros k Hk.
    apply (field_setFields_other k (productUpdate body) p). exact Hk.
Qed.

(** ** The reports and the two status routes *)

Lemma agree_refl ks docs : agree ks docs docs.
Proof. induction docs; constructor; auto. Qed.

Lemma agree_updateFirst ks q u docs :
  (forall d k, In k ks -> field k (setFields u d) = field k d) ->
  agree ks docs (updateFirst q u docs).
Proof.
  intros Hu. induction docs as [|d r IH]; simpl; [constructor|].
  destruct (matches q d); constructor.
  - intros k Hk. now apply Hu.
  - apply agree_refl.
  - reflexivity.
  - exact IH.
Qed.

Lemma sum_agree k ks docs docs' :
  In k ks -> agree ks docs docs' ->
  forall acc, fold_left (sumStep k) docs' acc = fold_left (sumStep k) docs acc.
Proof.
  intros Hk Ha. induction Ha as [|d d' r r' Hd _ IH]; intros acc; simpl.
  - reflexivity.
  - unfold sumStep at 2 4. rewrite (Hd k Hk). apply IH.
Qed.

Lemma groupSum_agree out k ks docs docs' :
  In k ks -> agree ks docs docs' ->
  runStage (GroupSum out k) docs' = runStage (GroupSum out k) docs.
Proof.
  intros Hk Ha. simpl.
  rewrite (sum_agree k ks docs docs' Hk Ha).
  now destruct Ha.
Qed.

Lemma matchGte_agree k t ks docs docs' :
  In k ks -> agree ks docs docs' ->
  agree ks (runStage (MatchGte k t) docs) (runStage (MatchGte k t) docs').
Proof.
  intros Hk Ha. simpl. induction Ha as [|d d' r r' Hd _ IH]; simpl.
  - constructor.
  - rewrite (Hd k Hk). destruct (field k d) as [| | | | | |t']; auto.
    destruct (t <=? t'); auto. constructor; auto.
Qed.

Lemma pipeline_sum_agree out k ks docs docs' :
  In k ks -> agree ks docs docs' ->
  runPipeline [GroupSum out k] docs' = runPipeline [GroupSum out k] docs.
Proof.
  intros Hk Ha. unfold runPipeline. cbn [fold_left]. now apply (groupSum_agree _ _ ks).
Qed.

Lemma totals_agree db db' :
  agree ["price"] (logoDocs db) (logoDocs db') ->
  agree ["totalAmount"; "createdAt"] (orderDocs db) (orderDocs db') ->
  responseOf (totals db') = responseOf (totals db).
Proof.
  intros Hl Ho. rewrite !totals_run. unfold responseOf. cbn [fst].
  rewrite (pipeline_sum_agree _ "price" ["price"] _ _ (or_introl eq_refl) Hl).
  now rewrite (pipeline_sum_agree _ "totalAmount" ["totalAmount"; "createdAt"] _ _
                 (or_introl eq_refl) Ho).
Qed.

Lemma salesStats_run c db :
  let sum := GroupSum "totalAmount" "totalAmount" in
  let since t := runPipeline [MatchGte "createdAt" t; sum] (orderDocs db) in
  salesStats c db =
    (mkResponse 200
       (Obj [("weeklySales",
              JValue (firstOrZero "totalAmount" (since (now c - 7 * 24 * 60 * 60 * 1000))));
             ("monthlySales", JValue (firstOrZero "totalAmount" (since (startOfMonth c))));
             ("yearlySales", JValue (firstOrZero "totalAmount" (since (startOfYear c))));
             ("totalSales",
              JValue (firstOrZero "totalAmount" (runPipeline [sum] (orderDocs db))));
             ("salesByMonth", JNumbers salesByMonth)]),
     db,
     [(OpAggregate, orders); (OpAggregate, orders); (OpAggregate, orders);
      (OpAggregate, orders)]).
Proof. reflexivity. Qed.

Lemma since_agree t docs docs' :
  agree ["totalAmount"; "createdAt"] docs docs' ->
  runPipeline [MatchGte "createdAt" t; GroupSum "totalAmount" "totalAmount"] docs'
  = runPipeline [MatchGte "createdAt" t; GroupSum "totalAmount" "totalAmount"] docs.
Proof.
  intros Ha. unfold runPipeline. cbn [fold_left].
  apply (groupSum_agree _ _ ["totalAmount"; "createdAt"]); [now left|].
  apply matchGte_agree; [right; now left | assumption].
Qed.

Lemma salesStats_agree c db db' :
  agree ["totalAmount"; "createdAt"] (orderDocs db) (orderDocs db') ->
  responseOf (salesStats c db') = responseOf (salesStats c db).
Proof.
  intros Ho. rewrite !salesStats_run. unfold responseOf. cbn [fst]. cbv zeta.
  rewrite !(since_agree _ _ _ Ho).
  now rewrite (pipeline_sum_agree _ "totalAmount" ["totalAmount"; "createdAt"] _ _
                 (or_introl eq_refl) Ho).
Qed.

Lemma completeOrder_cases id db :
  databaseOf (completeOrder id db) = db
  \/ exists o,
       databaseOf (completeOrder id db) =
         withCollection orders
           (updateFirst (ById o) [("status", VStr "complete")] (orderDocs db)) db.
Proof.
  unfold completeOrder. destruct (negb (ObjectId.isValid id)); [now left|].
  run. destruct (ObjectId.new id) as [o|]; [|now left]. simpl.
  destruct (findFirst _ _); [right; now exists o | now left].
Qed.

Lemma approveLogo_cases id db :
  databaseOf (approveLogo id db) = db
  \/ exists o,
       databaseOf (approveLogo id db) =
         withCollection logos
           (updateFirst (ById o) [("approval", VBool true)] (logoDocs db)) db.
Proof.
  unfold approveLogo. destruct (negb (ObjectId.isValid id)); [now left|].
  run. destruct (ObjectId.new id) as [o|]; [|now left]. simpl.
  destruct (findFirst _ _); [right; now exists o | now left].
Qed.

(** X17. Completing an order or approving a logo changes no figure of the
    reports: [totals] and [salesStats] answer after the request exactly
    what they answered before it, for every id, matching or not. *)
Theorem status_routes_leave_the_reports_unchanged id db c :
  responseOf (totals (databaseOf (completeOrder id db))) = responseOf (totals db)
  /\ responseOf (salesStats c (databaseOf (completeOrder id db)))
     = responseOf (salesStats c db)
  /\ responseOf (totals (databaseOf (approveLogo id db))) = responseOf (totals db)
  /\ responseOf (salesStats c (databaseOf (approveLogo id db)))
     = responseOf (salesStats c db).
Proof.
  assert (Ho : agree ["totalAmount"; "createdAt"] (orderDocs db)
                 (orderDocs (databaseOf (completeOrder id db)))).
  { destruct (completeOrder_cases id db) as [->|(o & ->)]; [apply agree_refl|].
    simpl. apply agree_updateFirst. intros d k Hk. unfold setFields; simpl.
    apply field_setField_other. destruct Hk as [<-|[<-|[]]]; discriminate. }
  assert (Hl : logoDocs (databaseOf (completeOrder id db)) = logoDocs db).
  { destruct (completeOrder_cases id db) as [->|(o & ->)]; reflexivity. }
  assert (Hl' : agree ["price"] (logoDocs db)
                  (logoDocs (databaseOf (approveLogo id db)))).
  { destruct (approveLogo_cases id db) as [->|(o & ->)]; [apply agree_refl|].
    simpl. apply agree_updateFirst. intros d k Hk. unfold setFields; simpl.
    apply field_setField_other. destruct Hk as [<-|[]]; discriminate. }
  assert (Ho' : orderDocs (databaseOf (approveLogo id db)) = orderDocs db).
  { destruct (approveLogo_cases id db) as [->|(o & ->)]; reflexivity. }
  repeat split.
  - apply totals_agree; [rewrite Hl; apply agree_refl | exact Ho].
  - apply salesStats_agree. exact Ho.
  - apply totals_agree; [exact Hl' | rewrite Ho'; apply agree_refl].
  - apply salesStats_agree. rewrite Ho'. apply agree_refl.
Qed.

(** ** The windows of the sales statistics *)

Lemma filter_all {A} (f : A -> bool) l : forallb f l = true -> filter f l = l.
Proof.
  induction l as [|x r IH]; simpl; [reflexivity|].
  intros H. apply andb_prop in H. destruct H as [Hx Hr]. now rewrite Hx, IH.
Qed.

Lemma filter_none {A} (f : A -> bool) l :
  forallb (fun x => negb (f x)) l = true -> filter f l = [].
Proof.
  induction l as [|x r IH]; simpl; [reflexivity|].
  intros H. apply andb_prop in H. destruct H as [Hx Hr].
  destruct (f x); [discriminate | now apply IH].
Qed.

Lemma since_is_filter t docs :
  runPipeline [MatchGte "createdAt" t; GroupSum "totalAmount" "totalAmount"] docs
  = runPipeline [GroupSum "totalAmount" "totalAmount"] (filter (createdSince t) docs).
Proof. reflexivity. Qed.

(** X18. In [salesStats], [totalSales] is the [totalAmount] that [totals]
    reports. Each of the weekly, monthly and yearly figures counts the
    orders whose [createdAt] is a date not before the start of its window
    (seven days before now, the start of the month, the start of the
    year): it equals [totalSales] when every order is such, and it is 0
    when none is, in particular when the orders carry no date. *)
Theorem windowed_sales_count_dated_orders c db :
  let r := responseOf (salesStats c db) in
  answered "totalSales" r = answered "totalAmount" (responseOf (totals db))
  /\ forall key start,
       In (key, start) [("weeklySales", now c - 604800000);
                        ("monthlySales", startOfMonth c);
                        ("yearlySales", startOfYear c)] ->
       (forallb (createdSince start) (orderDocs db) = true ->
        answered key r = answered "totalSales" r)
       /\ (forallb (fun d => negb (createdSince start d)) (orderDocs db) = true ->
           answered key r = Some (JValue (VNum (num 0)))).
Proof.
  intros r. subst r. rewrite salesStats_run, totals_run. cbv zeta.
  unfold responseOf. cbn [fst]. split; [reflexivity|].
  intros key start Hin.
  destruct Hin as [E|[E|[E|[]]]]; inversion E; subst key start; clear E;
    unfold answered; cbn [body List.find fst snd String.eqb Ascii.eqb Bool.eqb];
    rewrite since_is_filter; split; intros H.
  all: try change (7 * 24 * 60 * 60 * 1000) with 604800000.
  all: first [ rewrite (filter_all _ _ H); reflexivity
             | rewrite (filter_none _ _ H); reflexivity ].
Qed.

(** ** Deleting twice *)

Lemma findFirst_app_None q before after :
  findFirst q before = None -> findFirst q after = None ->
  findFirst q (before ++ after) = None.
Proof. intros Hb Ha. now rewrite findFirst_app, Hb. Qed.

(** X19. When exactly one product carries the id, a first [deleteProduct]
    is answered 200 and a second one, on the database the first left, is
    answered 404 and changes nothing more. *)
Theorem deleteProduct_twice db id o before p after :
  ObjectId.new id = Some o ->
  productDocs db = before ++ p :: after ->
  field "_id" p = VId o ->
  hasId o before = false -> hasId o after = false ->
  let once := deleteProduct id db in
  let twice := deleteProduct id (databaseOf once) in
  responseOf once = mkResponse 200 (Obj [message "Product deleted successfully"])
  /\ productDocs (databaseOf once) = before ++ after
  /\ responseOf twice = mkResponse 404 (Obj [message "Product not found"])
  /\ databaseOf twice = databaseOf once.
Proof.
  intros Hid Hsplit Hp Hb Ha once twice.
  apply hasId_findFirst in Hb. apply hasId_findFirst in Ha.
  assert (Hfind : findFirst (ById o) (productDocs db) = Some p).
  { rewrite Hsplit, findFirst_app, Hb. simpl. rewrite Hp. simpl.
    now rewrite ObjectId_eqb_refl. }
  assert (Hdel : deleteFirst (ById o) (productDocs db) = before ++ after).
  { rewrite Hsplit. clear - Hb Hp. induction before as [|x r IH]; simpl in *.
    - rewrite Hp. simpl. now rewrite ObjectId_eqb_refl.
    - destruct (value_eqb (field "_id" x) (VId o)); [discriminate|].
      now rewrite IH. }
  assert (Eonce : once =
    (mkResponse 200 (Obj [message "Product deleted successfully"]),
     mkDatabase (adminDocs db) (before ++ after) (orderDocs db) (logoDocs db),
     [(OpDeleteOne, products)])).
  { subst once. unfold deleteProduct. run. rewrite Hid. simpl. rewrite Hfind. simpl.
    now rewrite Hdel. }
  subst twice. rewrite Eonce. unfold responseOf, databaseOf. simpl.
  unfold deleteProduct. run. rewrite Hid. simpl.
  rewrite (findFirst_app_None _ _ _ Hb Ha). simpl. repeat split.
Qed.


(** ** Further concrete runs *)

Lemma createProduct_list_delete_round_trip_run :
  let fresh := oid "cccccccccccccccccccccccc" in
  let created :=
    databaseOf (createProduct sampleNewProduct (Some "https://img/away.png") fresh
                  sampleDb) in
  status (responseOf (createProduct sampleNewProduct (Some "https://img/away.png")
                        fresh sampleDb)) = 201
  /\ responseOf (listProducts created) =
       mkResponse 200
         (Arr (productDocs sampleDb
               ++ [productRecord sampleNewProduct "https://img/away.png" fresh]))
  /\ deleteProduct (ObjectId.toHexString fresh) created =
       (mkResponse 200 (Obj [message "Product deleted successfully"]), sampleDb,
        [(OpDeleteOne, products)]).
Proof.
  apply (createProduct_list_delete_round_trip sampleDb sampleNewProduct
           "https://img/away.png" (oid "cccccccccccccccccccccccc")); reflexivity.
Defined.

Lemma loginWithId_after_register_run :
  let fresh := oid "aaaaaaaaaaaaaaaaaaaaaaaa" in
  let db' := databaseOf (register plainHash sampleRegistration "salt-1" fresh sampleDb) in
  loginWithId [("id", VStr "aaaaaaaaaaaaaaaaaaaaaaaa")] [] db' =
    (mkResponse 200 (Obj [message "Login successful";
                          ("id", JValue (VId fresh));
                          ("email", JValue (VStr "ann@jersey.shop"));
                          ("name", JValue (VStr "Ann"))]),
     db', [(OpFindOne, admin)]).
Proof.
  apply (loginWithId_after_register plainHash sampleDb sampleRegistration "salt-1"
           (oid "aaaaaaaaaaaaaaaaaaaaaaaa") [("id", VStr "aaaaaaaaaaaaaaaaaaaaaaaa")] []);
    reflexivity.
Defined.

Lemma unvalidated_id_answers_500_run :
  deleteProduct "not-an-id" sampleDb =
    (mkResponse 500 (Obj [message "Error deleting product";
                          ("error", JErrorMessage BSONError)]), sampleDb, [])
  /\ updateProduct "not-an-id" sampleNewProduct sampleDb =
       (mkResponse 500 (Obj [message "Error updating product";
                             ("error", JErrorMessage BSONError)]), sampleDb, [])
  /\ loginWithId [("id", VStr "not-an-id")] [] sampleDb =
       (mkResponse 500 (Obj [message "Error logging in";
                             ("error", JErrorMessage BSONError)]), sampleDb, []).
Proof.
  pose proof (unvalidated_id_answers_500 sampleDb "not-an-id" eq_refl) as (H1 & H2 & H3).
  split; [exact H1|]. split.
  - apply H2. reflexivity.
  - apply H3; [reflexivity | discriminate].
Defined.

Lemma createProduct_without_image_is_500_run :
  createProduct sampleNewProduct None (oid "cccccccccccccccccccccccc") sampleDb =
    (mkResponse 500 (Obj [message "Error adding product";
                          ("error", JErrorMessage TypeError)]), sampleDb, []).
Proof.
  apply (createProduct_without_image_is_500 sampleDb sampleNewProduct). reflexivity.
Defined.

Lemma product_fields_are_required_run :
  let free := [("name", VStr "Sticker"); ("category", VStr "extras");
               ("price", VNum (num 0)); ("size", VStr "S")] in
  createProduct free (Some "https://img/sticker.png") (oid "cccccccccccccccccccccccc")
    sampleDb =
    (mkResponse 400 (Obj [message "Please provide all required fields"]), sampleDb, [])
  /\ updateProduct "65a1b2c3d4e5f60718293a4b" free sampleDb =
       (mkResponse 400 (Obj [message "Please provide all required fields"]), sampleDb, []).
Proof.
  pose proof (product_fields_are_required sampleDb
                [("name", VStr "Sticker"); ("category", VStr "extras");
                 ("price", VNum (num 0)); ("size", VStr "S")] eq_refl) as (H1 & H2).
  split; [apply H1 | apply H2].
Defined.

Lemma credentials_are_required_run :
  register plainHash [("name", VStr "Ann"); ("email", VStr "ann@jersey.shop")]
    "salt-1" (oid "aaaaaaaaaaaaaaaaaaaaaaaa") sampleDb =
    (mkResponse 400 (Obj [message "Please provide all fields"]), sampleDb, [])
  /\ login plainCompare [("email", VStr "ann@jersey.shop")] sampleDb =
       (mkResponse 400 (Obj [message "Email and password are required"]), sampleDb, [])
  /\ loginWithId [("id", VStr "")] [] sampleDb =
       (mkResponse 400 (Obj [message "ID is required"]), sampleDb, []).
Proof.
  split; [|split].
  - apply (proj1 (credentials_are_required plainHash plainCompare sampleDb
                    [("name", VStr "Ann"); ("email", VStr "ann@jersey.shop")])).
    reflexivity.
  - apply (proj1 (proj2 (credentials_are_required plainHash plainCompare sampleDb
                           [("email", VStr "ann@jersey.shop")]))).
    reflexivity.
  - apply (proj2 (proj2 (credentials_are_required plainHash plainCompare sampleDb
                           [("id", VStr "")]))).
    reflexivity.
Defined.

Lemma login_failures_look_alike_run :
  login plainCompare [("email", VStr "bob@jersey.shop"); ("password", VStr "guess")]
    sampleAdminDb =
    (mkResponse 401 (Obj [message "Invalid email or password"]), sampleAdminDb,
     [(OpFindOne, admin)])
  /\ login plainCompare [("email", VStr "ann@jersey.shop"); ("password", VStr "guess")]
       sampleAdminDb =
       (mkResponse 401 (Obj [message "Invalid email or password"]), sampleAdminDb,
        [(OpFindOne, admin)]).
Proof.
  split.
  - apply (proj1 (login_failures_look_alike plainCompare sampleAdminDb
                    [("email", VStr "bob@jersey.shop"); ("password", VStr "guess")]
                    "guess" eq_refl eq_refl ltac:(discriminate))).
    reflexivity.
  - apply (proj2 (login_failures_look_alike plainCompare sampleAdminDb
                    [("email", VStr "ann@jersey.shop"); ("password", VStr "guess")]
                    "guess" eq_refl eq_refl ltac:(discriminate))
             sampleAdmin "s3cret"); reflexivity.
Defined.

Lemma approveLogo_getLogo_idempotent_run :
  let id := "507f191e810c19729de860ea" in
  let once := approveLogo id sampleDb in
  let twice := approveLogo id (databaseOf once) in
  responseOf once = mkResponse 200 (Obj [message "Logo status updated to complete"])
  /\ (exists logo',
        responseOf (getLogo id (databaseOf once)) = mkResponse 200 (Doc logo')
        /\ field "approval" logo' = VBool true
        /\ forall k, k <> "approval" -> field k logo' = field k sampleLogo)
  /\ responseOf twice = responseOf once
  /\ databaseOf twice = databaseOf once.
Proof.
  apply (approveLogo_getLogo_idempotent sampleDb "507f191e810c19729de860ea"
           (oid "507f191e810c19729de860ea") sampleLogo); reflexivity.
Defined.

Lemma unmatched_id_answers_404_run :
  let id := "000000000000000000000000" in
  getOrder id sampleDb =
    (mkResponse 404 (Obj [message "Order not found"]), sampleDb, [(OpFindOne, orders)])
  /\ approveLogo id sampleDb =
       (mkResponse 404 (Obj [message "Logo not found"]), sampleDb,
        [(OpUpdateOne, logos)])
  /\ updateProduct id sampleNewProduct sampleDb =
       (mkResponse 404 (Obj [message "Product not found"]), sampleDb,
        [(OpUpdateOne, products)]).
Proof.
  pose proof (unmatched_id_answers_404 sampleDb "000000000000000000000000"
                (oid "000000000000000000000000") eq_refl) as (H1 & H2 & H3).
  split; [|split].
  - apply (proj1 (H1 eq_refl)).
  - apply (proj2 (H2 eq_refl)).
  - apply (H3 eq_refl). reflexivity.
Defined.

Lemma malformed_id_answers_400_run :
  completeOrder "12345" sampleDb =
    (mkResponse 400 (Obj [message "Invalid order ID format"]), sampleDb, [])
  /\ getLogo "12345" sampleDb =
       (mkResponse 400 (Obj [message "Invalid logo ID format"]), sampleDb, [])
  /\ approveLogo "12345" sampleDb =
       (mkResponse 400 (Obj [message "Invalid logo ID format"]), sampleDb, []).
Proof.
  apply (malformed_id_answers_400 sampleDb "12345"). reflexivity.
Defined.

Lemma request_writes_only_its_collection_run :
  collection logos
    (databaseOf (route plainHash plainCompare
                   (PostOrderComplete "507f1f77bcf86cd799439011") sampleDb))
  = collection logos sampleDb.
Proof.
  apply (request_writes_only_its_collection plainHash plainCompare
           (PostOrderComplete "507f1f77bcf86cd799439011") sampleDb logos).
  discriminate.
Defined.

Lemma reads_leave_the_database_unchanged_run :
  databaseOf (route plainHash plainCompare (GetSalesStats sampleClock) sampleDb)
  = sampleDb.
Proof.
  apply (reads_leave_the_database_unchanged plainHash plainCompare
           (GetSalesStats sampleClock) sampleDb).
  reflexivity.
Defined.

Lemma emails_stay_unique_run :
  (countEmail (VStr "ann@jersey.shop")
     (adminDocs
        (serveAll plainHash plainCompare
           [PostRegister sampleRegistration "salt-1" (oid "aaaaaaaaaaaaaaaaaaaaaaaa");
            PostRegister sampleRegistration "salt-2" (oid "bbbbbbbbbbbbbbbbbbbbbbbb")]
           sampleDb)) <= 1)%nat.
Proof.
  apply (emails_stay_unique plainHash plainCompare
           [PostRegister sampleRegistration "salt-1" (oid "aaaaaaaaaaaaaaaaaaaaaaaa");
            PostRegister sampleRegistration "salt-2" (oid "bbbbbbbbbbbbbbbbbbbbbbbb")]
           sampleDb (fun email => le_0_n 1) "ann@jersey.shop").
Defined.

Lemma listAdmins_returns_the_hash_run :
  exists pw record,
    field "password" sampleRegistration = VStr pw
    /\ responseOf (listAdmins
                     (databaseOf (register plainHash sampleRegistration "salt-1"
                                    (oid "aaaaaaaaaaaaaaaaaaaaaaaa") sampleDb)))
       = mkResponse 200 (Arr (adminDocs sampleDb ++ [record]))
    /\ field "_id" record = VId (oid "aaaaaaaaaaaaaaaaaaaaaaaa")
    /\ field "email" record = field "email" sampleRegistration
    /\ field "password" record = VStr (plainHash pw 10 "salt-1").
Proof.
  apply (listAdmins_returns_the_hash plainHash sampleDb sampleRegistration "salt-1"
           (oid "aaaaaaaaaaaaaaaaaaaaaaaa")).
  reflexivity.
Defined.

Lemma updateProduct_replaces_six_fields_run :
  exists before after p',
    productDocs sampleDb = before ++ sampleProduct :: after
    /\ hasId (oid "65a1b2c3d4e5f60718293a4b") before = false
    /\ updateProduct "65a1b2c3d4e5f60718293a4b" sampleNewProduct sampleDb =
         (mkResponse 200 (Obj [message "Product updated successfully";
                               ("updatedProduct", JObject (productUpdate sampleNewProduct))]),
          mkDatabase (adminDocs sampleDb) (before ++ p' :: after)
                     (orderDocs sampleDb) (logoDocs sampleDb),
          [(OpUpdateOne, products)])
    /\ field "name" p' = field "name" sampleNewProduct
    /\ field "category" p' = field "category" sampleNewProduct
    /\ field "price" p' = VNum (parseFloat (field "price" sampleNewProduct))
    /\ field "size" p' = field "size" sampleNewProduct
    /\ field "image" p' = or_else (field "image" sampleNewProduct) VNull
    /\ field "description" p' = or_else (field "description" sampleNewProduct) (VStr "")
    /\ forall k,
         ~ In k ["name"; "category"; "price"; "size"; "image"; "description"] ->
         field k p' = field k sampleProduct.
Proof.
  apply (updateProduct_replaces_six_fields sampleDb "65a1b2c3d4e5f60718293a4b"
           (oid "65a1b2c3d4e5f60718293a4b") sampleProduct sampleNewProduct);
    reflexivity.
Defined.

Lemma windowed_sales_count_dated_orders_run :
  answered "weeklySales" (responseOf (salesStats sampleClock sampleDb))
  = answered "totalSales" (responseOf (salesStats sampleClock sampleDb))
  /\ answered "yearlySales" (responseOf (salesStats sampleClock sampleUndatedDb))
     = Some (JValue (VNum (num 0)))
  /\ answered "totalSales" (responseOf (salesStats sampleClock sampleUndatedDb))
     = Some (JValue (VNum (num 10))).
Proof.
  split; [|split; [|reflexivity]].
  - apply (proj1 (proj2 (windowed_sales_count_dated_orders sampleClock sampleDb)
                    "weeklySales" (now sampleClock - 604800000) (or_introl eq_refl))).
    reflexivity.
  - apply (proj2 (proj2 (windowed_sales_count_dated_orders sampleClock sampleUndatedDb)
                    "yearlySales" (startOfYear sampleClock)
                    (or_intror (or_intror (or_introl eq_refl))))).
    reflexivity.
Defined.

Lemma deleteProduct_twice_run :
  let id := "65a1b2c3d4e5f60718293a4b" in
  let once := deleteProduct id sampleDb in
  let twice := deleteProduct id (databaseOf once) in
  responseOf once = mkResponse 200 (Obj [message "Product deleted successfully"])
  /\ productDocs (databaseOf once) = [] ++ []
  /\ responseOf twice = mkResponse 404 (Obj [message "Product not found"])
  /\ databaseOf twice = databaseOf once.
Proof.
  apply (deleteProduct_twice sampleDb "65a1b2c3d4e5f60718293a4b"
           (oid "65a1b2c3d4e5f60718293a4b") [] sampleProduct []); reflexivity.
Defined.
